(** * Interactive art with ipywidgets and Flat: the notebook's functions

    A shallow embedding of the code cells of [interactive-widgets.ipynb]:
    [hex2rgb], [show], [disp_square], [rand_ellipses],
    [rand_ellipses_seed] and [rand_alpha_ellipses], together with the
    Python builtins and the parts of numpy and Flat they call; and, from
    the text of the design, the control registry and the render
    dispatcher that the notebook leaves to ipywidgets. *)

From Stdlib Require Import ZArith List String Ascii Bool Lia.
Import ListNotations.

Local Open Scope Z_scope.

(** ** Exceptions and results *)

Inductive exception : Type :=
| ValueError
| OverflowError.

Inductive result (A : Type) : Type :=
| Return (a : A)
| Raise (e : exception).

Arguments Return {A} a.
Arguments Raise {A} e.

Definition returns {A} (r : result A) : bool :=
  match r with Return _ => true | Raise _ => false end.

(** ** Python builtins used by the notebook

    A [str] is modelled as a [string] whose characters are the code
    points below 256. *)

Module Py.

Definition ord (c : ascii) : Z := Z.of_N (N_of_ascii c).

Definition bind {A B} (r : result A) (f : A -> result B) : result B :=
  match r with
  | Return a => f a
  | Raise e => Raise e
  end.

(** [[f(i) for i in xs]]: the elements are evaluated left to right and
    the first exception ends the comprehension. *)
Fixpoint comprehension {A B} (f : A -> result B) (xs : list A)
  : result (list B) :=
  match xs with
  | [] => Return []
  | x :: xs' =>
      bind (f x) (fun v =>
      bind (comprehension f xs') (fun vs => Return (v :: vs)))
  end.

(** [range(start, stop, step)] for a positive step. *)
Definition range (start stop step : Z) : list Z :=
  map (fun k => start + Z.of_nat k * step)
      (seq 0 (Z.to_nat ((stop - start + step - 1) / step))).

(** [s.lstrip(chars)]: drops the longest prefix made of characters of
    [chars]. *)
Fixpoint mem (c : ascii) (chars : string) : bool :=
  match chars with
  | EmptyString => false
  | String d chars' => Ascii.eqb c d || mem c chars'
  end.

Fixpoint lstrip (s chars : string) : string :=
  match s with
  | EmptyString => EmptyString
  | String c s' => if mem c chars then lstrip s' chars else s
  end.

(** [s[i:j]]: a negative index counts from the end, and both indices are
    clamped to the string. *)
Definition clamp (len i : Z) : Z :=
  if i <? 0 then Z.max 0 (i + len) else Z.min i len.

Fixpoint drop (n : nat) (s : string) : string :=
  match n, s with
  | O, _ => s
  | S _, EmptyString => EmptyString
  | S n', String _ s' => drop n' s'
  end.

Fixpoint take (n : nat) (s : string) : string :=
  match n, s with
  | O, _ => EmptyString
  | S _, EmptyString => EmptyString
  | S n', String c s' => String c (take n' s')
  end.

Definition slice (s : string) (i j : Z) : string :=
  let len := Z.of_nat (String.length s) in
  let lo := clamp len i in
  let hi := clamp len j in
  take (Z.to_nat (hi - lo)) (drop (Z.to_nat lo) s).

(** *** [int(s, base)] on a string

    Leading and trailing whitespace is skipped, one sign is accepted, and
    for base 16, 8 or 2 the prefix [0x], [0o] or [0b]; the digits may be
    separated by single underscores and there must be at least one of
    them.  Anything else is a [ValueError]. *)

(** The value of a character as a digit; 37 when it is none. *)
Definition DigitValue (c : ascii) : Z :=
  let n := ord c in
  if (48 <=? n) && (n <=? 57) then n - 48
  else if (97 <=? n) && (n <=? 122) then n - 87
  else if (65 <=? n) && (n <=? 90) then n - 55
  else 37.

(** The characters [int] takes for whitespace: tab, line feed, vertical
    tab, form feed, carriage return and space, and, above the ASCII
    range, U+0085 and U+00A0. *)
Definition isspace (c : ascii) : bool :=
  let n := ord c in
  ((9 <=? n) && (n <=? 13)) || (n =? 32) || (n =? 133) || (n =? 160).

Fixpoint skip_space (s : string) : string :=
  match s with
  | String c s' => if isspace c then skip_space s' else s
  | EmptyString => s
  end.

Definition is_prefix_letter (base : Z) (c : ascii) : bool :=
  let n := ord c in
  ((base =? 16) && ((n =? 120) || (n =? 88)))
  || ((base =? 8) && ((n =? 111) || (n =? 79)))
  || ((base =? 2) && ((n =? 98) || (n =? 66))).

(** The run of digits and underscores at the head of [s]: its value and
    what follows it, or [None] when two underscores meet, when the run
    ends in an underscore, or when it holds no digit. *)
Fixpoint scan (base : Z) (s : string) (prev_underscore seen : bool)
  (acc : Z) : option (Z * string) :=
  let stop :=
    if prev_underscore || negb seen then None else Some (acc, s) in
  match s with
  | EmptyString => stop
  | String c s' =>
      if Ascii.eqb c "_" then
        if prev_underscore then None else scan base s' true seen acc
      else if DigitValue c <? base then
        scan base s' false true (acc * base + DigitValue c)
      else stop
  end.

Definition int (s : string) (base : Z) : result Z :=
  let s1 := skip_space s in
  let '(negative, s2) :=
    match s1 with
    | String "+" r => (false, r)
    | String "-" r => (true, r)
    | _ => (false, s1)
    end in
  let s3 :=
    match s2 with
    | String "0" (String c r) =>
        if is_prefix_letter base c
        then match r with String "_" r' => r' | _ => r end
        else s2
    | _ => s2
    end in
  match s3 with
  | String "_" _ => Raise ValueError
  | _ =>
      match scan base s3 false false 0 with
      | Some (v, rest) =>
          match skip_space rest with
          | EmptyString => Return (if negative then - v else v)
          | String _ _ => Raise ValueError
          end
      | None => Raise ValueError
      end
  end.

(** [float(z)] on an int, which is also what [z * 2.5] or [z / 255.0]
    do to [z] first: an int that rounds past the largest double, that is
    one of magnitude 2**1024 - 2**970 or more, is refused with
    [OverflowError]. *)
Definition float_of_int_ok (z : Z) : bool :=
  Z.abs z <? 2 ^ 1024 - 2 ^ 970.

End Py.

(** ** Cell 24: [hex2rgb] *)

Definition hex2rgb (s : string) : result (list Z) :=
  let s := Py.lstrip s "#" in
  Py.comprehension (fun i => Py.int (Py.slice s i (i + 2)) 16)
                   (Py.range 0 5 2).

(** ** Numbers, numpy's global generator and Flat's objects *)

(** A Python number: the notebook passes both [int] and [float] values
    to numpy and to Flat. *)
Inductive pynum (F : Type) : Type :=
| PyInt (z : Z)
| PyFloat (x : F).

Arguments PyInt {F} z.
Arguments PyFloat {F} x.

(** The two sampling calls of the notebook: [np.random.uniform(low)]
    (one argument, [high] left at its default) and
    [np.random.normal(loc, scale)]. *)
Inductive distribution (F : Type) : Type :=
| Uniform (low : pynum F)
| Normal (loc scale : pynum F).

Arguments Uniform {F} low.
Arguments Normal {F} loc scale.

(** numpy's module-level generator.  Its algorithm is not part of the
    notebook: the notebook only relies on it being a state that
    [np.random.seed] replaces and that every sampling call reads and
    advances. *)
Class NumpyRandom : Type := {
  float64 : Type;
  RandomState : Type;
  (** the state [np.random.seed(s)] installs for a seed in range *)
  init_by_seed : Z -> RandomState;
  (** one sample and the advanced state *)
  sample : distribution float64 -> RandomState -> float64 * RandomState;
  (** [np.isfinite] on a double: neither an infinity nor a NaN *)
  isfinite : float64 -> bool
}.

Module Flat.
Section Objects.

Variable number : Type.

Inductive color : Type :=
| rgb (r g b : number)
| rgba (r g b a : number).

(** A stroke or fill setting of a pen: still the library's default, set
    to nothing, or set to a color. *)
Inductive paint : Type :=
| unset
| nopaint
| solid (c : color).

(** The object [shape()] returns; its methods update it and return it. *)
Record pen : Type := {
  pen_stroke : paint;
  pen_fill : paint;
  pen_width : option number
}.

Definition shape : pen :=
  {| pen_stroke := unset; pen_fill := unset; pen_width := None |}.

Definition fill (c : color) (p : pen) : pen :=
  {| pen_stroke := pen_stroke p; pen_fill := solid c;
     pen_width := pen_width p |}.

Definition nostroke (p : pen) : pen :=
  {| pen_stroke := nopaint; pen_fill := pen_fill p;
     pen_width := pen_width p |}.

(** What [pen.rectangle(x, y, width, height)] and
    [pen.ellipse(x, y, rx, ry)] build. *)
Inductive item : Type :=
| rectangle (p : pen) (x y w h : number)
| ellipse (p : pen) (x y rx ry : number).

Record page : Type := {
  page_width : number;
  page_height : number;
  page_units : string;
  items : list item
}.

(** [document(width, height, units).addpage()]: an empty page of the
    document's size. *)
Record document_ : Type := {
  doc_width : number;
  doc_height : number;
  doc_units : string
}.

Definition document (w h : number) (units : string) : document_ :=
  {| doc_width := w; doc_height := h; doc_units := units |}.

Definition addpage (d : document_) : page :=
  {| page_width := doc_width d; page_height := doc_height d;
     page_units := doc_units d; items := [] |}.

(** [page.place(item)] adds the item after those already placed. *)
Definition place (it : item) (pg : page) : page :=
  {| page_width := page_width pg; page_height := page_height pg;
     page_units := page_units pg; items := items pg ++ [it] |}.

(** The SVG serialisation of a page, kept symbolic. *)
Inductive markup : Type :=
| svg (pg : page).

End Objects.

Arguments rgb {number}.
Arguments rgba {number}.
Arguments unset {number}.
Arguments nopaint {number}.
Arguments solid {number}.
Arguments shape {number}.
Arguments fill {number}.
Arguments nostroke {number}.
Arguments rectangle {number}.
Arguments ellipse {number}.
Arguments document {number}.
Arguments addpage {number}.
Arguments place {number}.
Arguments svg {number}.
Arguments items {number}.
Arguments page_width {number}.
Arguments page_height {number}.
Arguments page_units {number}.
Arguments pen_stroke {number}.
Arguments pen_fill {number}.
Arguments pen_width {number}.

End Flat.

Import Flat.

(** ** The notebook's cells *)

Section Notebook.

Context {numpy : NumpyRandom}.

Local Abbreviation number := (pynum float64).

(** [IPython.display.SVG(data)] *)
Inductive display_object : Type :=
| SVG (data : markup number).

(** What a cell does that can be seen from outside: the samples it takes
    from numpy's generator and the objects it hands to [display]. *)
Inductive event : Type :=
| Draw (d : distribution float64) (x : float64)
| Display (o : display_object).

(** A piece of notebook code: it runs from a state of the generator and
    ends with a value or an exception, the state it leaves and the events
    it produced, in order. *)
Definition action (A : Type) : Type :=
  RandomState -> result A * RandomState * list event.

Definition ret {A} (a : A) : action A :=
  fun g => (Return a, g, []).

Definition bind {A B} (m : action A) (k : A -> action B) : action B :=
  fun g =>
    match m g with
    | (Return a, g1, ev1) =>
        match k a g1 with
        | (r, g2, ev2) => (r, g2, ev1 ++ ev2)
        end
    | (Raise e, g1, ev1) => (Raise e, g1, ev1)
    end.

Notation "x <- m ;; k" := (bind m (fun x => k))
  (at level 61, m at next level, right associativity).
Notation "m ;; k" := (bind m (fun _ => k))
  (at level 61, right associativity).

(** [np.random.seed(s)]: an integer outside [0, 2**32 - 1] is refused. *)
Definition np_random_seed (s : Z) : action unit :=
  fun g =>
    if (0 <=? s) && (s <=? 2 ^ 32 - 1)
    then (Return tt, init_by_seed s, [])
    else (Raise ValueError, g, []).

Definition np_random (d : distribution float64) : action float64 :=
  fun g => let (x, g1) := sample d g in (Return x, g1, [Draw d x]).

Definition raise {A} (e : exception) : action A :=
  fun g => (Raise e, g, []).

(** A number that is a finite double once converted: an int that
    converts, or a float that is neither an infinity nor a NaN. *)
Definition finite_number (x : number) : bool :=
  match x with
  | PyInt z => Py.float_of_int_ok z
  | PyFloat x => isfinite x
  end.

(** [np.random.uniform(low)] first makes a double of [low] and checks
    that the range up to [high] is finite: an int too large for a double,
    an infinity or a NaN is refused with [OverflowError], before any
    sample is taken. *)
Definition uniform_accepts (low : number) : bool := finite_number low.

Definition np_random_uniform (low : number) : action float64 :=
  if uniform_accepts low
  then np_random (Uniform low)
  else raise OverflowError.

(** [np.random.normal(loc, scale)]; the notebook calls it with the
    constants 40 and 20 only. *)
Definition np_random_normal (loc scale : number) : action float64 :=
  np_random (Normal loc scale).

Definition display (o : display_object) : action unit :=
  fun g => (Return tt, g, [Display o]).

(** [for i in xs: body], the body updating the page it works on. *)
Fixpoint for_each {S} (xs : list Z) (body : Z -> S -> action S) (s : S)
  : action S :=
  match xs with
  | [] => ret s
  | i :: xs' => s1 <- body i s ;; for_each xs' body s1
  end.

(** [page.svg()].  Writing the page out, Flat scales the coordinates
    and sizes of every item and the width of its pen by a float and
    divides the alpha of an rgba color by 255.0, so an int among them that
    is too large for a double ends the call with [OverflowError]; a float
    is written as it is.  The red, green and blue components reach it in
    these cells as constants or samples only. *)
Definition converts (x : number) : bool :=
  match x with
  | PyInt z => Py.float_of_int_ok z
  | PyFloat _ => true
  end.

Definition color_converts (c : color number) : bool :=
  match c with
  | rgb _ _ _ => true
  | rgba _ _ _ a => converts a
  end.

Definition paint_converts (p : paint number) : bool :=
  match p with
  | solid c => color_converts c
  | unset | nopaint => true
  end.

Definition pen_converts (p : pen number) : bool :=
  paint_converts (pen_stroke p) && paint_converts (pen_fill p)
  && match pen_width p with
     | Some w => converts w
     | None => true
     end.

Definition item_converts (it : item number) : bool :=
  match it with
  | rectangle p x y w h =>
      pen_converts p && converts x && converts y && converts w && converts h
  | ellipse p x y rx ry =>
      pen_converts p && converts x && converts y && converts rx
      && converts ry
  end.

Definition page_svg (page : page number) : result (markup number) :=
  if forallb item_converts (items page)
  then Return (svg page)
  else Raise OverflowError.

(** Cell 5: [display(SVG(page.svg()))] *)
Definition show (page : page number) : action unit :=
  match page_svg page with
  | Return data => display (SVG data)
  | Raise e => raise e
  end.

(** Cell 28 *)
Definition disp_square (size : number) : action unit :=
  let page := addpage (document (PyInt 80) (PyInt 80) "mm") in
  let pen :=
    nostroke (fill (rgb (PyInt 120) (PyInt 40) (PyInt 160)) shape) in
  let page := place (rectangle pen (PyInt 10) (PyInt 10) size size) page in
  show page.

(** Cell 43 *)
Definition rand_ellipses (n : Z) : action unit :=
  let page := addpage (document (PyInt 80) (PyInt 80) "mm") in
  page <- for_each (Py.range 0 n 1) (fun i page =>
    r <- np_random_uniform (PyInt 255) ;;
    g <- np_random_uniform (PyInt 255) ;;
    b <- np_random_uniform (PyInt 255) ;;
    x <- np_random_uniform (PyInt 80) ;;
    y <- np_random_uniform (PyInt 80) ;;
    size <- np_random_uniform (PyInt 40) ;;
    let pen :=
      fill (rgb (PyFloat r) (PyFloat g) (PyFloat b)) (nostroke shape) in
    ret (place (ellipse pen (PyFloat x) (PyFloat y)
                        (PyFloat size) (PyFloat size)) page)) page ;;
  show page.

(** Cell 51 *)
Definition rand_ellipses_seed (n : Z) : action unit :=
  np_random_seed 12345 ;;
  let page := addpage (document (PyInt 80) (PyInt 80) "mm") in
  page <- for_each (Py.range 0 n 1) (fun i page =>
    r <- np_random_uniform (PyInt 255) ;;
    g <- np_random_uniform (PyInt 255) ;;
    b <- np_random_uniform (PyInt 255) ;;
    x <- np_random_uniform (PyInt 80) ;;
    y <- np_random_uniform (PyInt 80) ;;
    size <- np_random_uniform (PyInt 40) ;;
    let pen :=
      fill (rgb (PyFloat r) (PyFloat g) (PyFloat b)) (nostroke shape) in
    ret (place (ellipse pen (PyFloat x) (PyFloat y)
                        (PyFloat size) (PyFloat size)) page)) page ;;
  show page.

(** Cell 75 *)
Definition rand_alpha_ellipses (n : Z) (alpha max_size : number)
  (pos_dist : string) (seed : Z) : action unit :=
  np_random_seed seed ;;
  let page := addpage (document (PyInt 80) (PyInt 80) "mm") in
  page <- for_each (Py.range 0 n 1) (fun i page =>
    r <- np_random_uniform (PyInt 255) ;;
    g <- np_random_uniform (PyInt 255) ;;
    b <- np_random_uniform (PyInt 255) ;;
    xy <- (if String.eqb pos_dist "uniform" then
             x <- np_random_uniform (PyInt 80) ;;
             y <- np_random_uniform (PyInt 80) ;;
             ret (x, y)
           else
             x <- np_random_normal (PyInt 40) (PyInt 20) ;;
             y <- np_random_normal (PyInt 40) (PyInt 20) ;;
             ret (x, y)) ;;
    size <- np_random_uniform max_size ;;
    let pen :=
      fill (rgba (PyFloat r) (PyFloat g) (PyFloat b) alpha)
           (nostroke shape) in
    ret (place (ellipse pen (PyFloat (fst xy)) (PyFloat (snd xy))
                        (PyFloat size) (PyFloat size)) page)) page ;;
  show page.

(** *** Reading a run *)

Definition outcome {A} (run : result A * RandomState * list event)
  : result A := fst (fst run).

Definition final_state {A} (run : result A * RandomState * list event)
  : RandomState := snd (fst run).

Definition events {A} (run : result A * RandomState * list event)
  : list event := snd run.

(** The samples of a trace, in the order they were taken. *)
Fixpoint draws (evs : list event) : list float64 :=
  match evs with
  | [] => []
  | Draw _ x :: evs' => x :: draws evs'
  | Display _ :: evs' => draws evs'
  end.

Fixpoint drawn_from (evs : list event) : list (distribution float64) :=
  match evs with
  | [] => []
  | Draw d _ :: evs' => d :: drawn_from evs'
  | Display _ :: evs' => drawn_from evs'
  end.

(** The pages a trace displayed. *)
Fixpoint displayed (evs : list event) : list (page number) :=
  match evs with
  | [] => []
  | Draw _ _ :: evs' => displayed evs'
  | Display (SVG (svg pg)) :: evs' => pg :: displayed evs'
  end.

(** *** The scene described from the samples

    What the loops of [rand_ellipses], [rand_ellipses_seed] and
    [rand_alpha_ellipses] are expected to build, written on the list of
    samples: every six consecutive samples (red, green, blue, x, y, size)
    give one ellipse with no stroke and both radii equal to the size. *)

Fixpoint ellipses_of (col : number -> number -> number -> color number)
  (xs : list float64) : list (item number) :=
  match xs with
  | r :: g :: b :: x :: y :: size :: xs' =>
      ellipse (fill (col (PyFloat r) (PyFloat g) (PyFloat b))
                    (nostroke shape))
              (PyFloat x) (PyFloat y) (PyFloat size) (PyFloat size)
      :: ellipses_of col xs'
  | _ => []
  end.

Definition is_circle (it : item number) : Prop :=
  match it with
  | ellipse p _ _ rx ry =>
      rx = ry /\ pen_stroke p = nopaint /\
      exists c, pen_fill p = solid c
  | rectangle _ _ _ _ _ => False
  end.

(** Sampling a list of distributions in turn from a state. *)
Fixpoint sample_all (ds : list (distribution float64)) (g : RandomState)
  : list float64 * RandomState :=
  match ds with
  | [] => ([], g)
  | d :: ds' =>
      let (x, g1) := sample d g in
      let (xs, g2) := sample_all ds' g1 in
      (x :: xs, g2)
  end.

(** The distributions one ellipse takes its six samples from. *)
Definition six (dpos dsize : distribution float64)
  : list (distribution float64) :=
  [Uniform (PyInt 255); Uniform (PyInt 255); Uniform (PyInt 255);
   dpos; dpos; dsize].

Definition valid_seed (s : Z) : Prop := 0 <= s <= 2 ^ 32 - 1.

(** The events of taking the samples [xs] from the distributions [ds]. *)
Definition drawing (ds : list (distribution float64)) (xs : list float64)
  : list event :=
  map (fun p => Draw (fst p) (snd p)) (combine ds xs).

(** A page with further items placed on it. *)
Definition put_items (pg : page number) (its : list (item number))
  : page number :=
  {| page_width := page_width pg; page_height := page_height pg;
     page_units := page_units pg; items := items pg ++ its |}.

(** A loop body that takes the six samples of one ellipse and places
    that ellipse on the page it is given. *)
Definition places_one_ellipse (dpos dsize : distribution float64)
  (col : number -> number -> number -> color number)
  (body : Z -> page number -> action (page number)) : Prop :=
  forall i pg g,
    body i pg g =
    (Return (put_items pg
               (ellipses_of col (fst (sample_all (six dpos dsize) g)))),
     snd (sample_all (six dpos dsize) g),
     drawing (six dpos dsize) (fst (sample_all (six dpos dsize) g))).

(** The distribution [rand_alpha_ellipses] takes positions from. *)
Definition position_distribution (pos_dist : string)
  : distribution float64 :=
  if String.eqb pos_dist "uniform"
  then Uniform (PyInt 80)
  else Normal (PyInt 40) (PyInt 20).

End Notebook.

(** ** A small generator to run the cells on

    A linear congruential step over 31 bits; a sample is the new state,
    shifted by 2^31 for a normal sample so that the two kinds differ.
    It stands in for numpy's generator where a concrete run is wanted. *)

Definition lcg_next (g : Z) : Z := (1103515245 * g + 12345) mod 2 ^ 31.

Definition lcg : NumpyRandom :=
  {| float64 := Z;
     RandomState := Z;
     init_by_seed := fun s => s;
     sample := fun d g =>
       let g1 := lcg_next g in
       match d with
       | Uniform _ => (g1, g1)
       | Normal _ _ => (g1 + 2 ^ 31, g1)
       end;
     isfinite := fun _ => true |}.

(** ** Hexadecimal colors described character by character *)

Module HexSpec.

Local Open Scope string_scope.

(** The position of a character in a string. *)
Fixpoint index_of (c : ascii) (s : string) : option Z :=
  match s with
  | EmptyString => None
  | String d s' =>
      if Ascii.eqb c d then Some 0
      else option_map Z.succ (index_of c s')
  end.

(** The value of a hexadecimal digit, in either case. *)
Definition hexdigit (c : ascii) : option Z :=
  match index_of c "0123456789abcdef" with
  | Some v => Some v
  | None => index_of c "0123456789ABCDEF"
  end.

Definition is_hexdigit (c : ascii) : bool :=
  match hexdigit c with Some _ => true | None => false end.

(** [k] characters '#'. *)
Fixpoint hashes (k : nat) : string :=
  match k with
  | O => EmptyString
  | S k' => String "#" (hashes k')
  end.

(** A string that begins with six hexadecimal digits. *)
Definition six_hexdigits (s : string) : bool :=
  match s with
  | String d1 (String d2 (String d3 (String d4 (String d5 (String d6 _)))))
    => is_hexdigit d1 && is_hexdigit d2 && is_hexdigit d3
       && is_hexdigit d4 && is_hexdigit d5 && is_hexdigit d6
  | _ => false
  end.

Definition is_sign (c : ascii) : bool :=
  Ascii.eqb c "+" || Ascii.eqb c "-".

(** The strings of at most two characters that are a number in base 16:
    one digit; two digits; a digit after a sign or a whitespace
    character; a digit before a whitespace character. *)
Definition short_literal (s : string) : bool :=
  match s with
  | String c EmptyString => is_hexdigit c
  | String c1 (String c2 EmptyString) =>
      (is_hexdigit c1 && is_hexdigit c2)
      || ((is_sign c1 || Py.isspace c1) && is_hexdigit c2)
      || (is_hexdigit c1 && Py.isspace c2)
  | _ => false
  end.

(** Every character, for properties checked character by character. *)
Definition all_ascii : list ascii := map ascii_of_nat (seq 0 256).

Definition for_all (P : ascii -> bool) : bool := forallb P all_ascii.

(** The check that two hexadecimal digits are read as the number they
    write. *)
Definition two_digits_check (c1 c2 : ascii) : bool :=
  match hexdigit c1, hexdigit c2 with
  | Some v1, Some v2 =>
      match Py.int (String c1 (String c2 EmptyString)) 16 with
      | Return v => Z.eqb v (16 * v1 + v2)
      | Raise _ => false
      end
  | _, _ => true
  end.

(** The three slices [hex2rgb] reads are all such numbers. *)
Definition three_literals (s : string) : bool :=
  short_literal (Py.slice s 0 2)
  && short_literal (Py.slice s 2 4)
  && short_literal (Py.slice s 4 6).

End HexSpec.

(** ** The control registry and the render dispatcher of the design

    The notebook creates its widgets and binds its functions through
    ipywidgets; it holds no code for the two components below.  They are
    written here from the text of the design. *)

Module ControlRegistry.
Section Registry.

(** The numbers of a numeric control, with the test [x <= y] on them and
    their zero; and what the listeners act on. *)
Variable num : Type.
Variable num_leb : num -> num -> bool.
Variable num_zero : num.
Variable world : Type.

(** Modelled from the spec: the errors the Control Registry raises (the
    repository defines none of them): [InvalidBoundsError] at
    construction, [OutOfRangeError] and [InvalidChoiceError] at update. *)
Inductive error : Type :=
| InvalidBoundsError
| OutOfRangeError
| InvalidChoiceError.

(** Modelled from the spec: the kind of a Control (integer range, real
    range, free text, boolean, enumerated choice, color), absent from the
    repository; a numeric kind carries its bounds (min, max, step) and an
    enumerated choice its options, so that bounds given to a kind they do
    not apply to cannot be written. *)
Inductive kind : Type :=
| integer_range (min max step : num)
| real_range (min max step : num)
| free_text
| boolean
| enumerated_choice (options : list string)
| color.

(** Modelled from the spec: the value a Control holds, absent from the
    repository: a number, a text (also a color), a boolean or a
    choice. *)
Inductive value : Type :=
| number (x : num)
| text (s : string)
| truth (b : bool)
| choice (s : string).

(** Modelled from the spec: the update mode of a Control (immediate or
    on-commit), absent from the repository. *)
Inductive update_mode : Type :=
| immediate
| on_commit.

(** Modelled from the spec: a listener subscribed to a Control, absent
    from the repository: it is invoked with the value just stored and acts
    on the world around the registry. *)
Definition listener : Type := value -> world -> world.

(** Modelled from the spec: a Control (identifier, kind with its bounds,
    current value, update mode) with the listeners subscribed to it in
    registration order; the repository has no such type. *)
Record control : Type := {
  identifier : nat;
  control_kind : kind;
  current : value;
  mode : update_mode;
  listeners : list listener
}.

(** Modelled from the spec: [create(kind, config)], absent from the
    repository: it fails with [InvalidBoundsError] when min > max or
    step <= 0, and otherwise returns a new Control with no listener. *)
Definition create (id : nat) (k : kind) (initial : value) (m : update_mode)
  : error + control :=
  let new := {| identifier := id; control_kind := k; current := initial;
                mode := m; listeners := [] |} in
  match k with
  | integer_range mn mx st | real_range mn mx st =>
      if negb (num_leb mn mx) || num_leb st num_zero
      then inl InvalidBoundsError
      else inr new
  | free_text | boolean | enumerated_choice _ | color => inr new
  end.

(** Modelled from the spec: [getValue(id)], absent from the repository:
    the current value. *)
Definition getValue (c : control) : value := current c.

(** Modelled from the spec: [subscribe(id, listener)], absent from the
    repository: the listener is registered after those already there. *)
Definition subscribe (c : control) (l : listener) : control :=
  {| identifier := identifier c; control_kind := control_kind c;
     current := current c; mode := mode c;
     listeners := listeners c ++ [l] |}.

(** Modelled from the spec: the test that a value lies within
    [min, max], which [setValue] makes for numeric kinds; a value that is
    no number does not lie there. *)
Definition within (mn mx : num) (v : value) : bool :=
  match v with
  | number x => num_leb mn x && num_leb x mx
  | text _ | truth _ | choice _ => false
  end.

(** Modelled from the spec: the test that a value is among the
    enumerated options, which [setValue] makes for an enumerated
    choice. *)
Definition among (options : list string) (v : value) : bool :=
  match v with
  | choice s => existsb (String.eqb s) options
  | number _ | text _ | truth _ => false
  end.

(** Modelled from the spec: [setValue(id, v)], absent from the
    repository: it fails with [OutOfRangeError] if v falls outside
    [min, max] for numeric kinds, or [InvalidChoiceError] if v is not
    among the enumerated options; otherwise it overwrites the stored
    value and fires all subscribed listeners in registration order.  The
    result is the error, if any, with the control and the world as the
    call leaves them. *)
Definition setValue (c : control) (v : value) (w : world)
  : option error * control * world :=
  let stored :=
    {| identifier := identifier c; control_kind := control_kind c;
       current := v; mode := mode c; listeners := listeners c |} in
  let done :=
    (None, stored, fold_left (fun w l => l v w) (listeners c) w) in
  match control_kind c with
  | integer_range mn mx _ | real_range mn mx _ =>
      if within mn mx v then done else (Some OutOfRangeError, c, w)
  | enumerated_choice options =>
      if among options v then done else (Some InvalidChoiceError, c, w)
  | free_text | boolean | color => done
  end.

End Registry.

Arguments number {num} x.
Arguments text {num} s.
Arguments truth {num} b.
Arguments choice {num} s.
Arguments integer_range {num} min max step.
Arguments real_range {num} min max step.
Arguments free_text {num}.
Arguments boolean {num}.
Arguments enumerated_choice {num} options.
Arguments color {num}.
Arguments create {num} num_leb num_zero {world} id k initial m.
Arguments getValue {num world} c.
Arguments subscribe {num world} c l.
Arguments setValue {num} num_leb {world} c v w.
Arguments within {num} num_leb mn mx v.
Arguments among {num} options v.
Arguments control_kind {num world} c.
Arguments listeners {num world} c.
Arguments current {num world} c.

End ControlRegistry.

Module RenderDispatcher.
Section Dispatcher.

(** The values of the bound controls gathered at one change. *)
Variable snapshot : Type.

(** Modelled from the spec: what reaches the dispatcher of one handle,
    absent from the repository: a bound control fires, with the snapshot
    gathered then, or the invocation in flight returns. *)
Inductive stimulus : Type :=
| fire (s : snapshot)
| returned.

(** Modelled from the spec: the beginning and the end of an invocation
    of the render function, as the dispatcher records them. *)
Inductive mark : Type :=
| Begin (s : snapshot)
| End (s : snapshot).

(** Modelled from the spec: the state of one handle of the Render
    Dispatcher, absent from the repository: the invocation in flight, the
    latest pending snapshot, and the invocations begun and ended so
    far. *)
Record handle : Type := {
  in_flight : option snapshot;
  pending : option snapshot;
  history : list mark
}.

(** Modelled from the spec: a handle as [bind] returns it, with nothing
    in flight and nothing pending. *)
Definition idle : handle :=
  {| in_flight := None; pending := None; history := [] |}.

(** Modelled from the spec: the coalescing policy of the Render
    Dispatcher, absent from the repository.  A control that fires while no
    invocation is in flight starts one; if it fires while a previous
    invocation is still executing, the dispatcher queues the latest
    pending snapshot, discarding any it supersedes, and begins the next
    invocation strictly after the current one returns. *)
Definition step (h : handle) (e : stimulus) : handle :=
  match e, in_flight h with
  | fire s, None =>
      {| in_flight := Some s; pending := pending h;
         history := history h ++ [Begin s] |}
  | fire s, Some _ =>
      {| in_flight := in_flight h; pending := Some s;
         history := history h |}
  | returned, Some a =>
      match pending h with
      | Some s =>
          {| in_flight := Some s; pending := None;
             history := history h ++ [End a; Begin s] |}
      | None =>
          {| in_flight := None; pending := None;
             history := history h ++ [End a] |}
      end
  | returned, None => h
  end.

(** Modelled from the spec: the dispatcher taking its stimuli one after
    the other, on the host's single execution context. *)
Definition run (es : list stimulus) (h : handle) : handle :=
  fold_left step es h.

(** Modelled from the spec: the snapshots the render function was
    invoked with, in order. *)
Fixpoint invocations (log : list mark) : list snapshot :=
  match log with
  | [] => []
  | Begin s :: log' => s :: invocations log'
  | End _ :: log' => invocations log'
  end.

(** Modelled from the spec: the number of invocations in flight, those
    begun and not ended. *)
Fixpoint running (log : list mark) : Z :=
  match log with
  | [] => 0
  | Begin _ :: log' => 1 + running log'
  | End _ :: log' => running log' - 1
  end.

End Dispatcher.

Arguments fire {snapshot} s.
Arguments returned {snapshot}.
Arguments Begin {snapshot} s.
Arguments End {snapshot} s.
Arguments idle {snapshot}.
Arguments step {snapshot} h e.
Arguments run {snapshot} es h.
Arguments invocations {snapshot} log.
Arguments running {snapshot} log.
Arguments history {snapshot} h.
Arguments in_flight {snapshot} h.
Arguments pending {snapshot} h.

End RenderDispatcher.

(** * Properties *)

(** ** [hex2rgb] *)

Section HexProperties.

Import HexSpec.
Local Open Scope string_scope.

Lemma in_all_ascii (c : ascii) : In c all_ascii.
Proof.
  rewrite <- (ascii_nat_embedding c).
  apply in_map, in_seq.
  pose proof (nat_ascii_bounded c). lia.
Qed.

Lemma for_all_spec (P : ascii -> bool) :
  for_all P = true -> forall c, P c = true.
Proof.
  unfold for_all. rewrite forallb_forall.
  intros H c. apply H, in_all_ascii.
Qed.

Lemma for_all2_spec (P : ascii -> ascii -> bool) :
  for_all (fun c1 => for_all (P c1)) = true ->
  forall c1 c2, P c1 c2 = true.
Proof.
  intros H c1 c2.
  apply (for_all_spec (P c1)), (for_all_spec _ H).
Qed.

(** On one and on two characters, [int(s, 16)] returns exactly on the
    forms listed by [short_literal]. *)
Lemma int_one_char (c : ascii) :
  returns (Py.int (String c EmptyString) 16) = short_literal (String c EmptyString).
Proof.
  apply eqb_prop.
  revert c. apply for_all_spec. vm_compute. reflexivity.
Qed.

Lemma int_two_chars (c1 c2 : ascii) :
  returns (Py.int (String c1 (String c2 EmptyString)) 16)
  = short_literal (String c1 (String c2 EmptyString)).
Proof.
  apply eqb_prop.
  revert c1 c2. apply for_all2_spec. vm_compute. reflexivity.
Qed.

Lemma int_short_literal (s : string) :
  (String.length s <= 2)%nat ->
  returns (Py.int s 16) = short_literal s.
Proof.
  destruct s as [|c1 [|c2 [|c3 s]]]; intros Hlen.
  - reflexivity.
  - apply int_one_char.
  - apply int_two_chars.
  - simpl in Hlen. lia.
Qed.

(** Two hexadecimal digits are read as the number they write. *)
Lemma int_two_hexdigits (c1 c2 : ascii) (v1 v2 : Z) :
  hexdigit c1 = Some v1 -> hexdigit c2 = Some v2 ->
  Py.int (String c1 (String c2 EmptyString)) 16 = Return (16 * v1 + v2).
Proof.
  intros H1 H2.
  assert (H : two_digits_check c1 c2 = true).
  { revert c1 c2 H1 H2. intros c1 c2 _ _.
    revert c1 c2. apply for_all2_spec. vm_compute. reflexivity. }
  unfold two_digits_check in H. rewrite H1, H2 in H.
  destruct (Py.int (String c1 (String c2 EmptyString)) 16) as [v|e].
  - apply Z.eqb_eq in H. now subst.
  - discriminate.
Qed.

Lemma hexdigit_range (c : ascii) (v : Z) :
  hexdigit c = Some v -> 0 <= v <= 15.
Proof.
  intros Hc.
  assert (H : match hexdigit c with
              | Some v => (0 <=? v)%Z && (v <=? 15)%Z
              | None => true
              end = true).
  { clear Hc. revert c. apply for_all_spec. vm_compute. reflexivity. }
  rewrite Hc in H. apply andb_prop in H. lia.
Qed.

Lemma hexdigit_not_hash (c : ascii) (v : Z) :
  hexdigit c = Some v -> Py.mem c "#" = false.
Proof.
  intros Hc.
  assert (H : match hexdigit c with
              | Some _ => negb (Py.mem c "#")
              | None => true
              end = true).
  { clear Hc. revert c. apply for_all_spec. vm_compute. reflexivity. }
  rewrite Hc in H. now apply negb_true_iff in H.
Qed.

Lemma lstrip_hashes (k : nat) (s : string) :
  Py.lstrip (hashes k ++ s) "#" = Py.lstrip s "#".
Proof.
  induction k as [|k IH]; simpl.
  - reflexivity.
  - exact IH.
Qed.

Lemma take_length (n : nat) (s : string) :
  (String.length (Py.take n s) <= n)%nat.
Proof.
  revert s. induction n as [|n IH]; intros [|c s]; simpl; try lia.
  specialize (IH s). lia.
Qed.

Lemma slice_two_length (s : string) (i : Z) :
  0 <= i -> (String.length (Py.slice s i (i + 2)) <= 2)%nat.
Proof.
  intros Hi. unfold Py.slice.
  set (len := Z.of_nat (String.length s)).
  pose proof (take_length
    (Z.to_nat (Py.clamp len (i + 2) - Py.clamp len i))
    (Py.drop (Z.to_nat (Py.clamp len i)) s)) as H.
  assert (Z.to_nat (Py.clamp len (i + 2) - Py.clamp len i) <= 2)%nat.
  { unfold Py.clamp.
    destruct (Z.ltb_spec (i + 2) 0); destruct (Z.ltb_spec i 0); lia. }
  lia.
Qed.

(** [hex2rgb] spelled out: the three slices are read in order. *)
Lemma hex2rgb_unfold (s : string) :
  hex2rgb s =
  let t := Py.lstrip s "#" in
  Py.bind (Py.int (Py.slice t 0 2) 16) (fun r =>
  Py.bind (Py.int (Py.slice t 2 4) 16) (fun g =>
  Py.bind (Py.int (Py.slice t 4 6) 16) (fun b =>
  Return [r; g; b]))).
Proof.
  unfold hex2rgb.
  change (Py.range 0 5 2) with [0; 2; 4]. simpl.
  destruct (Py.int (Py.slice (Py.lstrip s "#") 0 2) 16); simpl; auto.
  destruct (Py.int (Py.slice (Py.lstrip s "#") 2 4) 16); simpl; auto.
  destruct (Py.int (Py.slice (Py.lstrip s "#") 4 6) 16); simpl; auto.
Qed.

(** C2.  For a string made of any number of '#' characters followed by
    exactly six hexadecimal digits, [hex2rgb] returns the three numbers
    written in base 16 by the first, second and third pair of digits,
    and each of them lies between 0 and 255. *)
Theorem hex2rgb_six_digits (k : nat) (d1 d2 d3 d4 d5 d6 : ascii)
  (v1 v2 v3 v4 v5 v6 : Z) :
  hexdigit d1 = Some v1 -> hexdigit d2 = Some v2 ->
  hexdigit d3 = Some v3 -> hexdigit d4 = Some v4 ->
  hexdigit d5 = Some v5 -> hexdigit d6 = Some v6 ->
  hex2rgb (hashes k ++
           String d1 (String d2 (String d3
             (String d4 (String d5 (String d6 EmptyString))))))
  = Return [16 * v1 + v2; 16 * v3 + v4; 16 * v5 + v6]
  /\ 0 <= 16 * v1 + v2 <= 255
  /\ 0 <= 16 * v3 + v4 <= 255
  /\ 0 <= 16 * v5 + v6 <= 255.
Proof.
  intros H1 H2 H3 H4 H5 H6.
  split.
  - rewrite hex2rgb_unfold, lstrip_hashes.
    cbv zeta.
    replace (Py.lstrip _ "#")
      with (String d1 (String d2 (String d3
             (String d4 (String d5 (String d6 EmptyString)))))).
    2:{ cbn [Py.lstrip]. now rewrite (hexdigit_not_hash _ _ H1). }
    change (Py.slice _ 0 2) with (String d1 (String d2 EmptyString)).
    change (Py.slice _ 2 4) with (String d3 (String d4 EmptyString)).
    change (Py.slice _ 4 6) with (String d5 (String d6 EmptyString)).
    rewrite (int_two_hexdigits _ _ _ _ H1 H2),
            (int_two_hexdigits _ _ _ _ H3 H4),
            (int_two_hexdigits _ _ _ _ H5 H6).
    reflexivity.
  - pose proof (hexdigit_range _ _ H1). pose proof (hexdigit_range _ _ H2).
    pose proof (hexdigit_range _ _ H3). pose proof (hexdigit_range _ _ H4).
    pose proof (hexdigit_range _ _ H5). pose proof (hexdigit_range _ _ H6).
    lia.
Qed.

(** The only exception of [int] on a string is [ValueError]. *)
Lemma int_raises (s : string) (base : Z) (e : exception) :
  Py.int s base = Raise e -> e = ValueError.
Proof.
  unfold Py.int.
  repeat match goal with
         | |- context [match ?x with _ => _ end] => destruct x
         end; congruence.
Qed.

(** Either one of the three slices is no number and [hex2rgb] raises,
    or all three are and it returns their values. *)
Lemma hex2rgb_cases (s : string) :
  (three_literals (Py.lstrip s "#") = false
   /\ hex2rgb s = Raise ValueError)
  \/ (three_literals (Py.lstrip s "#") = true
      /\ exists r g b, hex2rgb s = Return [r; g; b]).
Proof.
  rewrite hex2rgb_unfold. cbv zeta. unfold three_literals.
  set (t := Py.lstrip s "#").
  rewrite <- (int_short_literal (Py.slice t 0 2)),
          <- (int_short_literal (Py.slice t 2 4)),
          <- (int_short_literal (Py.slice t 4 6)).
  2: apply (slice_two_length t 4); lia.
  2: apply (slice_two_length t 2); lia.
  2: apply (slice_two_length t 0); lia.
  destruct (Py.int (Py.slice t 0 2) 16) as [r|e] eqn:Hr; simpl.
  2: apply int_raises in Hr; subst e; left; split; reflexivity.
  destruct (Py.int (Py.slice t 2 4) 16) as [g|e] eqn:Hg; simpl.
  2: apply int_raises in Hg; subst e; left; split; reflexivity.
  destruct (Py.int (Py.slice t 4 6) 16) as [b|e] eqn:Hb; simpl.
  2: apply int_raises in Hb; subst e; left; split; reflexivity.
  right. split; [reflexivity | eauto].
Qed.

(** A remainder of fewer than five characters always raises: its slice
    [4:6] is empty. *)
Lemma hex2rgb_short_raises (s : string) :
  (String.length (Py.lstrip s "#") < 5)%nat ->
  hex2rgb s = Raise ValueError.
Proof.
  intros Hlen.
  destruct (hex2rgb_cases s) as [[_ H]|[H _]]; [exact H|].
  exfalso. revert H. unfold three_literals.
  destruct (Py.lstrip s "#") as [|c1 [|c2 [|c3 [|c4 [|c5 t]]]]];
    simpl in Hlen; try lia;
    intros H; apply andb_prop in H; destruct H as [_ H]; discriminate H.
Qed.

(** C9, as the code has it.  [hex2rgb] raises [ValueError] exactly when
    one of the slices [0:2], [2:4], [4:6] of the string without its
    leading '#' characters is not a number in base 16 for [int]: not one
    hexadecimal digit, nor two, nor a digit after a sign or a whitespace
    character, nor a digit before a whitespace character.  In every other
    case it returns a triplet. *)
Theorem hex2rgb_raises_exactly (s : string) :
  (three_literals (Py.lstrip s "#") = false ->
   hex2rgb s = Raise ValueError)
  /\ (three_literals (Py.lstrip s "#") = true ->
      exists r g b, hex2rgb s = Return [r; g; b]).
Proof.
  destruct (hex2rgb_cases s) as [[Hno Hraise]|[Hyes Hret]]; split;
    intros H; try assumption; congruence.
Qed.

(** C9, as stated, fails: a remainder of five hexadecimal digits does
    not begin with six of them, and [hex2rgb] returns a triplet, the
    last digit being read alone. *)
Lemma hex2rgb_five_digits_returns :
  six_hexdigits (Py.lstrip "abcde" "#") = false
  /\ hex2rgb "abcde" = Return [171; 205; 14]
  /\ hex2rgb "abcde" <> Raise ValueError.
Proof. repeat split. discriminate. Qed.

Lemma hex2rgb_six_digits_witness :
  hexdigit "8" = Some 8 /\ hexdigit "0" = Some 0 /\ hexdigit "4" = Some 4
  /\ hex2rgb "#804080" = Return [128; 64; 128].
Proof.
  split; [reflexivity|]. split; [reflexivity|]. split; [reflexivity|].
  exact (proj1 (hex2rgb_six_digits 1 "8" "0" "4" "0" "8" "0" 8 0 4 0 8 0
                  eq_refl eq_refl eq_refl eq_refl eq_refl eq_refl)).
Defined.

Lemma hex2rgb_raises_exactly_witness :
  three_literals (Py.lstrip "black" "#") = false
  /\ hex2rgb "black" = Raise ValueError.
Proof.
  split.
  - reflexivity.
  - apply (proj1 (hex2rgb_raises_exactly "black")). reflexivity.
Defined.

Example hex2rgb_default_color : hex2rgb "#804080" = Return [128; 64; 128].
Proof. reflexivity. Qed.

Example hex2rgb_black : hex2rgb "black" = Raise ValueError.
Proof. reflexivity. Qed.

Example hex2rgb_shorthand : hex2rgb "#fff" = Raise ValueError.
Proof. reflexivity. Qed.

Example hex2rgb_signed : hex2rgb "+1-2 3" = Return [1; -2; 3].
Proof. reflexivity. Qed.

End HexProperties.

(** ** The drawing cells *)

Section NotebookProperties.

Context {numpy : NumpyRandom}.

Local Abbreviation number := (pynum float64).

Lemma range_length (n : Z) :
  List.length (Py.range 0 n 1) = Z.to_nat n.
Proof.
  unfold Py.range. rewrite length_map, length_seq.
  replace (n - 0 + 1 - 1) with n by lia.
  now rewrite Z.div_1_r.
Qed.

(** *** Samples and traces *)

Lemma sample_all_app (ds1 ds2 : list (distribution float64))
  (g : RandomState) :
  sample_all (ds1 ++ ds2) g =
  (fst (sample_all ds1 g) ++ fst (sample_all ds2 (snd (sample_all ds1 g))),
   snd (sample_all ds2 (snd (sample_all ds1 g)))).
Proof.
  revert g. induction ds1 as [|d ds1 IH]; intros g; simpl.
  - now destruct (sample_all ds2 g).
  - destruct (sample d g) as [x g1]. rewrite IH.
    destruct (sample_all ds1 g1) as [xs g2]. reflexivity.
Qed.

Lemma sample_all_length (ds : list (distribution float64))
  (g : RandomState) :
  List.length (fst (sample_all ds g)) = List.length ds.
Proof.
  revert g. induction ds as [|d ds IH]; intros g; simpl.
  - reflexivity.
  - destruct (sample d g) as [x g1]. specialize (IH g1).
    destruct (sample_all ds g1) as [xs g2]. simpl in *. now rewrite IH.
Qed.

Lemma drawing_app (ds1 ds2 : list (distribution float64))
  (xs1 xs2 : list float64) :
  List.length xs1 = List.length ds1 ->
  drawing (ds1 ++ ds2) (xs1 ++ xs2) = drawing ds1 xs1 ++ drawing ds2 xs2.
Proof.
  revert xs1. induction ds1 as [|d ds1 IH]; intros [|x xs1] Hlen;
    simpl in *; try discriminate; auto.
  unfold drawing in *. simpl. f_equal. apply IH. lia.
Qed.

Lemma draws_app (e1 e2 : list event) :
  draws (e1 ++ e2) = draws e1 ++ draws e2.
Proof.
  induction e1 as [|[d x|o] e1 IH]; simpl; now rewrite ?IH.
Qed.

Lemma drawn_from_app (e1 e2 : list event) :
  drawn_from (e1 ++ e2) = drawn_from e1 ++ drawn_from e2.
Proof.
  induction e1 as [|[d x|o] e1 IH]; simpl; now rewrite ?IH.
Qed.

Lemma displayed_app (e1 e2 : list event) :
  displayed (e1 ++ e2) = displayed e1 ++ displayed e2.
Proof.
  induction e1 as [|[d x|[[pg]]] e1 IH]; simpl; now rewrite ?IH.
Qed.

Lemma draws_drawing (ds : list (distribution float64))
  (xs : list float64) :
  List.length xs = List.length ds -> draws (drawing ds xs) = xs.
Proof.
  revert xs. induction ds as [|d ds IH]; intros [|x xs] Hlen;
    simpl in *; try discriminate; auto.
  f_equal. apply IH. lia.
Qed.

Lemma drawn_from_drawing (ds : list (distribution float64))
  (xs : list float64) :
  List.length xs = List.length ds -> drawn_from (drawing ds xs) = ds.
Proof.
  revert xs. induction ds as [|d ds IH]; intros [|x xs] Hlen;
    simpl in *; try discriminate; auto.
  f_equal. apply IH. lia.
Qed.

Lemma displayed_drawing (ds : list (distribution float64))
  (xs : list float64) :
  displayed (drawing ds xs) = [].
Proof.
  unfold drawing. induction (combine ds xs) as [|p l IH]; simpl; auto.
Qed.

(** *** Ellipses from samples *)

Section Ellipses.

Variables dpos dsize : distribution float64.
Variable col : number -> number -> number -> color number.

Lemma rounds_length (k : nat) :
  List.length (List.concat (repeat (six dpos dsize) k)) = (6 * k)%nat.
Proof.
  induction k as [|k IH]; simpl in *; lia.
Qed.

Lemma rounds_app (a b : nat) :
  List.concat (repeat (six dpos dsize) (a + b)) =
  List.concat (repeat (six dpos dsize) a) ++ List.concat (repeat (six dpos dsize) b).
Proof.
  now rewrite repeat_app, concat_app.
Qed.

Lemma ellipses_of_app (k : nat) (xs ys : list float64) :
  List.length xs = (6 * k)%nat ->
  ellipses_of col (xs ++ ys) = ellipses_of col xs ++ ellipses_of col ys.
Proof.
  revert xs. induction k as [|k IH]; intros xs Hlen.
  - destruct xs; [reflexivity | simpl in Hlen; lia].
  - destruct xs as [|r [|g [|b [|x [|y [|s xs]]]]]]; simpl in Hlen; try lia.
    simpl. f_equal. apply IH. lia.
Qed.

Lemma ellipses_of_length (k : nat) (xs : list float64) :
  List.length xs = (6 * k)%nat ->
  List.length (ellipses_of col xs) = k.
Proof.
  revert xs. induction k as [|k IH]; intros xs Hlen.
  - destruct xs; [reflexivity | simpl in Hlen; lia].
  - destruct xs as [|r [|g [|b [|x [|y [|s xs]]]]]]; simpl in Hlen; try lia.
    simpl. f_equal. apply IH. lia.
Qed.

Lemma ellipses_of_circles (xs : list float64) (k : nat) :
  List.length xs = (6 * k)%nat ->
  Forall is_circle (ellipses_of col xs).
Proof.
  revert xs. induction k as [|k IH]; intros xs Hlen.
  - destruct xs; [constructor | simpl in Hlen; lia].
  - destruct xs as [|r [|g [|b [|x [|y [|s xs]]]]]]; simpl in Hlen; try lia.
    simpl. constructor.
    + simpl. repeat split. eauto.
    + apply IH. lia.
Qed.

Lemma put_items_nil (pg : page number) : put_items pg [] = pg.
Proof.
  destruct pg. unfold put_items. simpl. now rewrite app_nil_r.
Qed.

Lemma put_items_app (pg : page number) (a b : list (item number)) :
  put_items (put_items pg a) b = put_items pg (a ++ b).
Proof.
  unfold put_items. simpl. now rewrite app_assoc.
Qed.

(** The loop, by induction on the values it runs over: it leaves on the
    page the ellipses of all the samples it took, six for each round. *)
Lemma for_each_spec (body : Z -> page number -> action (page number))
  (l : list Z) (pg : page number) (g : RandomState) :
  places_one_ellipse dpos dsize col body ->
  let ds := List.concat (repeat (six dpos dsize) (List.length l)) in
  for_each l body pg g =
  (Return (put_items pg (ellipses_of col (fst (sample_all ds g)))),
   snd (sample_all ds g),
   drawing ds (fst (sample_all ds g))).
Proof.
  intros Hbody. revert pg g.
  induction l as [|i l IH]; intros pg g.
  - simpl. unfold ret. now rewrite put_items_nil.
  - cbn [for_each List.length repeat List.concat]. cbv zeta in IH |- *.
    unfold bind at 1. rewrite Hbody.
    rewrite IH. rewrite sample_all_app.
    cbn [fst snd].
    rewrite put_items_app.
    rewrite <- (ellipses_of_app 1)
      by (rewrite sample_all_length; reflexivity).
    rewrite drawing_app by apply sample_all_length.
    reflexivity.
Qed.

End Ellipses.

(** *** The runs of the three random cells *)

Lemma uniform_accepts_small (z : Z) :
  Z.abs z <= 255 -> uniform_accepts (PyInt z) = true.
Proof.
  intros Hz. unfold uniform_accepts, finite_number, Py.float_of_int_ok.
  apply Z.ltb_lt.
  assert (2 ^ 970 * 2 <= 2 ^ 1024 - 2 ^ 970).
  { replace (2 ^ 1024) with (2 ^ 970 * 2 ^ 54)
      by (rewrite <- Z.pow_add_r by lia; reflexivity).
    assert (0 < 2 ^ 970) by (apply Z.pow_pos_nonneg; lia).
    assert (3 <= 2 ^ 54) by (change (2 ^ 54) with 18014398509481984; lia).
    nia. }
  assert (256 <= 2 ^ 970 * 2).
  { assert (2 ^ 7 <= 2 ^ 970) by (apply Z.pow_le_mono_r; lia).
    change (2 ^ 7) with 128 in *. lia. }
  lia.
Qed.

Lemma finite_converts (x : number) :
  finite_number x = true -> converts x = true.
Proof.
  destruct x; simpl; auto.
Qed.

Lemma np_random_uniform_constant (z : Z) :
  Z.abs z <= 255 ->
  np_random_uniform (PyInt z) = np_random (Uniform (PyInt z)).
Proof.
  intros Hz. unfold np_random_uniform.
  now rewrite uniform_accepts_small.
Qed.

Lemma np_random_uniform_accepted (low : number) :
  uniform_accepts low = true ->
  np_random_uniform low = np_random (Uniform low).
Proof.
  intros H. unfold np_random_uniform. now rewrite H.
Qed.

(** Ellipses made of samples are written out whenever their color is. *)
Lemma ellipses_convert
  (col : number -> number -> number -> color number)
  (xs : list float64) :
  (forall r g b, color_converts (col r g b) = true) ->
  forallb item_converts (ellipses_of col xs) = true.
Proof.
  intros Hcol.
  assert (H : forall k xs, (List.length xs <= k)%nat ->
                forallb item_converts (ellipses_of col xs) = true).
  { clear xs. induction k as [|k IH]; intros xs Hlen;
      destruct xs as [|r [|g [|b [|x [|y [|s xs]]]]]];
      simpl in Hlen; try reflexivity; try lia.
    cbn [ellipses_of forallb]. rewrite IH by lia.
    unfold item_converts, pen_converts. cbn.
    now rewrite Hcol. }
  apply (H (List.length xs)). lia.
Qed.

Lemma show_written (pg : page number) :
  forallb item_converts (items pg) = true ->
  show pg = display (SVG (svg pg)).
Proof.
  intros H. unfold show, page_svg. now rewrite H.
Qed.

Lemma show_refused (pg : page number) :
  forallb item_converts (items pg) = false ->
  show pg = raise OverflowError.
Proof.
  intros H. unfold show, page_svg. now rewrite H.
Qed.

Lemma show_ellipses
  (col : number -> number -> number -> color number)
  (xs : list float64) :
  (forall r g b, color_converts (col r g b) = true) ->
  show (put_items (addpage (document (PyInt 80) (PyInt 80) "mm"))
                  (ellipses_of col xs))
  = display (SVG (svg (put_items
      (addpage (document (PyInt 80) (PyInt 80) "mm"))
      (ellipses_of col xs)))).
Proof.
  intros Hcol. apply show_written.
  cbn [put_items items addpage app]. now apply ellipses_convert.
Qed.

Ltac take_samples :=
  repeat match goal with
         | |- context [sample ?d ?g] =>
             let x := fresh "x" in
             let g1 := fresh "g" in
             destruct (sample d g) as [x g1]; cbn [fst snd]
         end.

Ltac run_body :=
  intros ? ? ?;
  unfold bind, np_random_normal, np_random_uniform, np_random, raise, ret,
         six;
  rewrite ?(uniform_accepts_small 255), ?(uniform_accepts_small 80),
          ?(uniform_accepts_small 40) by (simpl; lia);
  cbn [sample_all];
  take_samples; reflexivity.

Lemma rand_ellipses_run (n : Z) (g : RandomState) :
  let ds := List.concat (repeat (six (Uniform (PyInt 80))
                                     (Uniform (PyInt 40))) (Z.to_nat n)) in
  let xs := fst (sample_all ds g) in
  rand_ellipses n g =
  (Return tt, snd (sample_all ds g),
   drawing ds xs ++
   [Display (SVG (svg (put_items
      (addpage (document (PyInt 80) (PyInt 80) "mm"))
      (ellipses_of rgb xs))))]).
Proof.
  cbv zeta. unfold rand_ellipses. unfold bind at 1.
  rewrite (for_each_spec (Uniform (PyInt 80)) (Uniform (PyInt 40)) rgb)
    by run_body.
  rewrite range_length. cbv beta iota.
  rewrite show_ellipses by reflexivity. reflexivity.
Qed.

Lemma rand_ellipses_seed_run (n : Z) (g : RandomState) :
  let ds := List.concat (repeat (six (Uniform (PyInt 80))
                                     (Uniform (PyInt 40))) (Z.to_nat n)) in
  let xs := fst (sample_all ds (init_by_seed 12345)) in
  rand_ellipses_seed n g =
  (Return tt, snd (sample_all ds (init_by_seed 12345)),
   drawing ds xs ++
   [Display (SVG (svg (put_items
      (addpage (document (PyInt 80) (PyInt 80) "mm"))
      (ellipses_of rgb xs))))]).
Proof.
  cbv zeta. unfold rand_ellipses_seed. unfold bind at 1.
  unfold np_random_seed at 1.
  change ((0 <=? 12345) && (12345 <=? 2 ^ 32 - 1)) with true. cbv iota.
  unfold bind at 1.
  rewrite (for_each_spec (Uniform (PyInt 80)) (Uniform (PyInt 40)) rgb)
    by run_body.
  rewrite range_length. cbv beta iota.
  rewrite show_ellipses by reflexivity. reflexivity.
Qed.

Ltac run_alpha_body :=
  intros ? ? ?;
  unfold bind, np_random_normal, np_random_uniform, np_random, raise, ret,
         six;
  rewrite ?(uniform_accepts_small 255), ?(uniform_accepts_small 80) by
    (simpl; lia);
  repeat match goal with
         | H : uniform_accepts _ = _ |- _ => rewrite H; clear H
         end;
  cbn [sample_all];
  take_samples; reflexivity.

Lemma seed_accepted (seed : Z) (g : RandomState) :
  valid_seed seed ->
  np_random_seed seed g = (Return tt, init_by_seed seed, []).
Proof.
  intros [Hlo Hhi]. unfold np_random_seed.
  replace ((0 <=? seed) && (seed <=? 2 ^ 32 - 1)) with true
    by (symmetry; apply andb_true_intro; split; now apply Z.leb_le).
  reflexivity.
Qed.

Lemma seed_refused (seed : Z) (g : RandomState) :
  ~ valid_seed seed ->
  np_random_seed seed g = (Raise ValueError, g, []).
Proof.
  intros Hbad. unfold np_random_seed.
  replace ((0 <=? seed) && (seed <=? 2 ^ 32 - 1)) with false.
  - reflexivity.
  - symmetry. apply not_true_is_false. intros H.
    apply andb_prop in H. destruct H as [H1 H2].
    apply Hbad. split; now apply Z.leb_le.
Qed.

(** The run with every argument accepted. *)
Lemma rand_alpha_ellipses_run (n : Z) (alpha max_size : number)
  (pos_dist : string) (seed : Z) (g : RandomState) :
  valid_seed seed ->
  uniform_accepts max_size = true ->
  converts alpha = true ->
  let ds := List.concat (repeat (six (position_distribution pos_dist)
                                     (Uniform max_size)) (Z.to_nat n)) in
  let xs := fst (sample_all ds (init_by_seed seed)) in
  rand_alpha_ellipses n alpha max_size pos_dist seed g =
  (Return tt, snd (sample_all ds (init_by_seed seed)),
   drawing ds xs ++
   [Display (SVG (svg (put_items
      (addpage (document (PyInt 80) (PyInt 80) "mm"))
      (ellipses_of (fun r g b => rgba r g b alpha) xs))))]).
Proof.
  intros Hseed Hsize Halpha. cbv zeta. unfold rand_alpha_ellipses.
  unfold bind at 1. rewrite seed_accepted by exact Hseed.
  unfold bind at 1.
  rewrite (for_each_spec (position_distribution pos_dist)
             (Uniform max_size) (fun r g b => rgba r g b alpha)).
  - rewrite range_length. cbv beta iota.
    rewrite show_ellipses by (intros; exact Halpha). reflexivity.
  - unfold position_distribution.
    destruct (String.eqb pos_dist "uniform"); run_alpha_body.
Qed.

Lemma rand_alpha_ellipses_bad_seed (n : Z) (alpha max_size : number)
  (pos_dist : string) (seed : Z) (g : RandomState) :
  ~ valid_seed seed ->
  rand_alpha_ellipses n alpha max_size pos_dist seed g
  = (Raise ValueError, g, []).
Proof.
  intros Hbad. unfold rand_alpha_ellipses.
  unfold bind at 1. now rewrite seed_refused.
Qed.

(** With no round to make, neither the size bound nor the alpha is
    looked at. *)
Lemma rand_alpha_ellipses_none (n : Z) (alpha max_size : number)
  (pos_dist : string) (seed : Z) (g : RandomState) :
  valid_seed seed -> n <= 0 ->
  rand_alpha_ellipses n alpha max_size pos_dist seed g
  = (Return tt, init_by_seed seed,
     [Display (SVG (svg (addpage (document (PyInt 80) (PyInt 80) "mm"))))]).
Proof.
  intros Hseed Hn. unfold rand_alpha_ellipses.
  unfold bind at 1. rewrite seed_accepted by exact Hseed.
  pose proof (range_length n) as Hlen.
  replace (Z.to_nat n) with 0%nat in Hlen by lia.
  destruct (Py.range 0 n 1); [|discriminate Hlen].
  reflexivity.
Qed.

(** A size bound that [np.random.uniform] refuses ends the call in the
    first round, after the five samples that come before the size. *)
Lemma rand_alpha_ellipses_bad_size (n : Z) (alpha max_size : number)
  (pos_dist : string) (seed : Z) (g : RandomState) :
  valid_seed seed -> 0 < n ->
  uniform_accepts max_size = false ->
  let dpos := position_distribution pos_dist in
  let ds := [Uniform (PyInt 255); Uniform (PyInt 255); Uniform (PyInt 255);
             dpos; dpos] in
  rand_alpha_ellipses n alpha max_size pos_dist seed g
  = (Raise OverflowError, snd (sample_all ds (init_by_seed seed)),
     drawing ds (fst (sample_all ds (init_by_seed seed)))).
Proof.
  intros Hseed Hn Hsize. cbv zeta. unfold rand_alpha_ellipses.
  unfold bind at 1. rewrite seed_accepted by exact Hseed.
  pose proof (range_length n) as Hlen.
  destruct (Py.range 0 n 1) as [|i l]; [simpl in Hlen; lia|].
  cbn [for_each]. unfold position_distribution.
  destruct (String.eqb pos_dist "uniform");
    unfold bind, np_random_normal, np_random_uniform, np_random, raise, ret;
    rewrite ?(uniform_accepts_small 255), ?(uniform_accepts_small 80) by
      (simpl; lia);
    rewrite Hsize; cbn [sample_all];
    take_samples; reflexivity.
Qed.

Lemma ellipses_refused (alpha : number) (k : nat) (xs : list float64) :
  converts alpha = false ->
  List.length xs = (6 * S k)%nat ->
  forallb item_converts
    (ellipses_of (fun r g b => rgba r g b alpha) xs) = false.
Proof.
  intros Halpha Hlen.
  destruct xs as [|r [|g [|b [|x [|y [|s xs]]]]]]; simpl in Hlen; try lia.
  cbn [ellipses_of forallb].
  unfold item_converts at 1, pen_converts. cbn.
  now rewrite Halpha.
Qed.

(** An alpha that cannot be written out ends the call when the page is
    serialised, after every sample has been taken. *)
Lemma rand_alpha_ellipses_bad_alpha (n : Z) (alpha max_size : number)
  (pos_dist : string) (seed : Z) (g : RandomState) :
  valid_seed seed -> 0 < n ->
  uniform_accepts max_size = true ->
  converts alpha = false ->
  let ds := List.concat (repeat (six (position_distribution pos_dist)
                                     (Uniform max_size)) (Z.to_nat n)) in
  rand_alpha_ellipses n alpha max_size pos_dist seed g
  = (Raise OverflowError, snd (sample_all ds (init_by_seed seed)),
     drawing ds (fst (sample_all ds (init_by_seed seed)))).
Proof.
  intros Hseed Hn Hsize Halpha. cbv zeta. unfold rand_alpha_ellipses.
  unfold bind at 1. rewrite seed_accepted by exact Hseed.
  unfold bind at 1.
  rewrite (for_each_spec (position_distribution pos_dist)
             (Uniform max_size) (fun r g b => rgba r g b alpha)).
  - rewrite range_length. cbv beta iota.
    set (ds := List.concat (repeat _ (Z.to_nat n))).
    rewrite show_refused.
    + unfold raise. now rewrite !app_nil_r.
    + cbn [put_items items addpage app].
      apply (ellipses_refused alpha (Z.to_nat n - 1)); [exact Halpha|].
      rewrite sample_all_length. unfold ds. rewrite rounds_length. lia.
  - unfold position_distribution.
    destruct (String.eqb pos_dist "uniform"); run_alpha_body.
Qed.

(** Whether [rand_alpha_ellipses] returns: the seed is checked first,
    then, if there is a round to make, the size bound in the first round,
    and the alpha at the end. *)
Lemma rand_alpha_ellipses_outcome (n : Z) (alpha max_size : number)
  (pos_dist : string) (seed : Z) (g : RandomState) :
  outcome (rand_alpha_ellipses n alpha max_size pos_dist seed g) =
  if (0 <=? seed) && (seed <=? 2 ^ 32 - 1) then
    if 0 <? n then
      if uniform_accepts max_size then
        if converts alpha then Return tt else Raise OverflowError
      else Raise OverflowError
    else Return tt
  else Raise ValueError.
Proof.
  destruct ((0 <=? seed) && (seed <=? 2 ^ 32 - 1)) eqn:Hs.
  - assert (Hseed : valid_seed seed).
    { apply andb_prop in Hs. destruct Hs. split; now apply Z.leb_le. }
    destruct (Z.ltb_spec 0 n) as [Hn|Hn].
    + destruct (uniform_accepts max_size) eqn:Hsize.
      * destruct (converts alpha) eqn:Halpha.
        -- now rewrite rand_alpha_ellipses_run.
        -- now rewrite rand_alpha_ellipses_bad_alpha.
      * now rewrite rand_alpha_ellipses_bad_size.
    + now rewrite rand_alpha_ellipses_none.
  - rewrite rand_alpha_ellipses_bad_seed; [reflexivity|].
    intros [H1 H2]. apply Z.leb_le in H1, H2.
    rewrite H1, H2 in Hs. discriminate.
Qed.

(** *** What the drawing cells do *)

(** C6, as the code has it.  [disp_square] builds a new 80 by 80 mm
    page holding exactly one item, a rectangle whose corner is at
    (10, 10) and whose width and height are both the size, filled with
    rgb(120, 40, 160) and without stroke.  For a size that is a finite
    double once converted (a finite float, or an int of magnitude below
    2**1024 - 2**970) it displays the SVG of that page; for a larger int
    writing the page out raises [OverflowError] and nothing is displayed.
    In both cases it takes no sample and leaves the generator as it
    was. *)
Theorem disp_square_scene (size : number) (g : RandomState) :
  let scene :=
    {| page_width := PyInt 80;
       page_height := PyInt 80;
       page_units := "mm";
       items :=
         [rectangle
            {| pen_stroke := nopaint;
               pen_fill := solid (rgb (PyInt 120) (PyInt 40) (PyInt 160));
               pen_width := None |}
            (PyInt 10) (PyInt 10) size size] |} in
  (finite_number size = true ->
   disp_square size g = (Return tt, g, [Display (SVG (svg scene))]))
  /\ (converts size = false ->
      disp_square size g = (Raise OverflowError, g, [])).
Proof.
  cbv zeta. unfold disp_square.
  split; intros Hsize.
  - apply finite_converts in Hsize.
    rewrite show_written; [reflexivity|].
    cbn [items place addpage app forallb].
    unfold item_converts, pen_converts. cbn [pen_stroke pen_fill pen_width
      nostroke fill shape paint_converts color_converts].
    rewrite Hsize. reflexivity.
  - rewrite show_refused; [reflexivity|].
    cbn [items place addpage app forallb].
    unfold item_converts, pen_converts. cbn [pen_stroke pen_fill pen_width
      nostroke fill shape paint_converts color_converts].
    rewrite Hsize. now rewrite !andb_false_r.
Qed.

(** C7.  For every n >= 0, [rand_ellipses n] returns normally after
    taking exactly 6 n samples from the generator, in order and from the
    state it was called in, six for each ellipse (three color components
    from uniform(255), x and y from uniform(80), the size from
    uniform(40)); it displays one 80 by 80 mm page that holds exactly n
    items, each an ellipse without stroke whose two radii are equal,
    built from the samples in the order they were taken. *)
Theorem rand_ellipses_places_n_circles (n : Z) (g : RandomState) :
  0 <= n ->
  let run := rand_ellipses n g in
  outcome run = Return tt
  /\ Z.of_nat (List.length (draws (events run))) = 6 * n
  /\ drawn_from (events run) =
     List.concat (repeat (six (Uniform (PyInt 80)) (Uniform (PyInt 40)))
                         (Z.to_nat n))
  /\ (draws (events run), final_state run) =
     sample_all (drawn_from (events run)) g
  /\ exists pg,
       displayed (events run) = [pg]
       /\ page_width pg = PyInt 80
       /\ page_height pg = PyInt 80
       /\ page_units pg = "mm"%string
       /\ Z.of_nat (List.length (items pg)) = n
       /\ Forall is_circle (items pg)
       /\ items pg = ellipses_of rgb (draws (events run)).
Proof.
  intros Hn. cbv zeta. rewrite rand_ellipses_run.
  set (ds := List.concat (repeat _ (Z.to_nat n))).
  pose proof (sample_all_length ds g) as Hxs.
  pose proof (rounds_length (Uniform (PyInt 80)) (Uniform (PyInt 40))
                (Z.to_nat n)) as Hds.
  fold ds in Hds.
  unfold outcome, events, final_state. cbn [fst snd].
  rewrite draws_app, drawn_from_app, displayed_app.
  rewrite draws_drawing, drawn_from_drawing, displayed_drawing by exact Hxs.
  cbn [draws drawn_from displayed]. rewrite !app_nil_r. cbn [app].
  split; [reflexivity|].
  split; [rewrite Hxs, Hds; lia|].
  split; [reflexivity|].
  split; [now destruct (sample_all ds g)|].
  eexists. split; [reflexivity|].
  cbn [put_items page_width page_height page_units items addpage
       document Flat.doc_width Flat.doc_height Flat.doc_units app].
  repeat split.
  - rewrite (ellipses_of_length rgb (Z.to_nat n)); [lia|].
    now rewrite Hxs, Hds.
  - apply (ellipses_of_circles rgb _ (Z.to_nat n)). now rewrite Hxs, Hds.
Qed.

(** C1.  Two calls of [rand_ellipses_seed] with the same n, started from
    any two states of the generator (whatever was drawn before either
    call), return normally, take the same samples from the same
    distributions, display the same page and leave the generator in the
    same state: the call first installs the state of seed 12345. *)
Theorem rand_ellipses_seed_deterministic (n : Z) (g1 g2 : RandomState) :
  let run1 := rand_ellipses_seed n g1 in
  let run2 := rand_ellipses_seed n g2 in
  outcome run1 = Return tt
  /\ outcome run2 = Return tt
  /\ draws (events run1) = draws (events run2)
  /\ drawn_from (events run1) = drawn_from (events run2)
  /\ displayed (events run1) = displayed (events run2)
  /\ final_state run1 = final_state run2
  /\ (draws (events run1), final_state run1) =
     sample_all (drawn_from (events run1)) (init_by_seed 12345).
Proof.
  cbv zeta. rewrite !rand_ellipses_seed_run.
  set (ds := List.concat (repeat _ (Z.to_nat n))).
  pose proof (sample_all_length ds (init_by_seed 12345)) as Hxs.
  unfold outcome, events, final_state. cbn [fst snd].
  rewrite draws_app, drawn_from_app.
  rewrite draws_drawing, drawn_from_drawing by exact Hxs.
  cbn [draws drawn_from]. rewrite !app_nil_r.
  repeat split. now destruct (sample_all ds (init_by_seed 12345)).
Qed.

(** C8.  For 0 <= n1 <= n2, whatever the states of the generator at the
    two calls, the page displayed by [rand_ellipses_seed n1] holds n1
    ellipses, and they are the first n1 of the n2 ellipses displayed by
    [rand_ellipses_seed n2]; likewise the 6 n1 samples of the first call
    are the first 6 n1 samples of the second. *)
Theorem rand_ellipses_seed_prefix (n1 n2 : Z) (g1 g2 : RandomState) :
  0 <= n1 <= n2 ->
  let run1 := rand_ellipses_seed n1 g1 in
  let run2 := rand_ellipses_seed n2 g2 in
  draws (events run1) = firstn (6 * Z.to_nat n1) (draws (events run2))
  /\ exists pg1 pg2,
       displayed (events run1) = [pg1]
       /\ displayed (events run2) = [pg2]
       /\ Z.of_nat (List.length (items pg1)) = n1
       /\ Z.of_nat (List.length (items pg2)) = n2
       /\ items pg1 = firstn (Z.to_nat n1) (items pg2).
Proof.
  intros [H1 H12]. cbv zeta. rewrite !rand_ellipses_seed_run.
  set (dpos := Uniform (PyInt 80)). set (dsize := Uniform (PyInt 40)).
  replace (Z.to_nat n2) with (Z.to_nat n1 + Z.to_nat (n2 - n1))%nat by lia.
  rewrite rounds_app.
  set (a := Z.to_nat n1). set (b := Z.to_nat (n2 - n1)).
  set (ds1 := List.concat (repeat (six dpos dsize) a)).
  set (ds2 := List.concat (repeat (six dpos dsize) b)).
  set (g0 := init_by_seed 12345).
  pose proof (sample_all_length ds1 g0) as Hxs1.
  pose proof (sample_all_length ds2 (snd (sample_all ds1 g0))) as Hxs2.
  pose proof (rounds_length dpos dsize a) as Hds1. fold ds1 in Hds1.
  pose proof (rounds_length dpos dsize b) as Hds2. fold ds2 in Hds2.
  pose proof (sample_all_length (ds1 ++ ds2) g0) as Hxs.
  unfold events. cbn [snd].
  rewrite !draws_app, !displayed_app.
  rewrite !draws_drawing, !displayed_drawing by assumption.
  cbn [draws displayed]. rewrite !app_nil_r. cbn [app].
  rewrite sample_all_app. cbn [fst].
  set (xs1 := fst (sample_all ds1 g0)) in *.
  set (xs2 := fst (sample_all ds2 (snd (sample_all ds1 g0)))) in *.
  assert (Hl1 : List.length xs1 = (6 * a)%nat) by now rewrite Hxs1.
  assert (Hl2 : List.length xs2 = (6 * b)%nat) by now rewrite Hxs2.
  split.
  - rewrite <- Hl1, firstn_app, firstn_all, Nat.sub_diag.
    cbn [firstn]. now rewrite app_nil_r.
  - do 2 eexists. split; [reflexivity|]. split; [reflexivity|].
    cbn [put_items items addpage app].
    rewrite (ellipses_of_app rgb a) by exact Hl1.
    pose proof (ellipses_of_length rgb a xs1 Hl1) as Hi1.
    pose proof (ellipses_of_length rgb b xs2 Hl2) as Hi2.
    rewrite length_app, Hi1, Hi2.
    repeat split; try (unfold a, b; lia).
    rewrite <- Hi1 at 1.
    rewrite firstn_app, firstn_all, Nat.sub_diag.
    cbn [firstn]. now rewrite app_nil_r.
Qed.

(** C10.  [rand_alpha_ellipses] never looks at [pos_dist] beyond
    comparing it with "uniform": whether the call returns or raises is
    the same for every string [pos_dist], so no value of it causes an
    error.  When the other arguments are accepted (the seed by
    [np.random.seed], the size bound by [np.random.uniform], and the
    alpha a finite number) the call returns normally; the six
    samples of each ellipse come from uniform(255) three times, then
    twice from the position distribution, then from uniform(max_size), and
    the position distribution is normal(40, 20) for every [pos_dist]
    other than the string "uniform" and uniform(80) for that string
    alone.  The ellipses displayed are built from these samples. *)
Theorem rand_alpha_ellipses_pos_dist (n : Z) (alpha max_size : number)
  (pos_dist : string) (seed : Z) (g : RandomState) :
  let run := rand_alpha_ellipses n alpha max_size pos_dist seed g in
  (forall other : string,
     outcome (rand_alpha_ellipses n alpha max_size other seed g)
     = outcome run)
  /\ (valid_seed seed ->
      uniform_accepts max_size = true ->
      finite_number alpha = true ->
      outcome run = Return tt
      /\ (exists dpos,
            drawn_from (events run) =
            List.concat (repeat [Uniform (PyInt 255); Uniform (PyInt 255);
                                 Uniform (PyInt 255); dpos; dpos;
                                 Uniform max_size] (Z.to_nat n))
            /\ (pos_dist <> "uniform"%string ->
                dpos = Normal (PyInt 40) (PyInt 20))
            /\ (pos_dist = "uniform"%string -> dpos = Uniform (PyInt 80)))
      /\ exists pg,
           displayed (events run) = [pg]
           /\ items pg =
              ellipses_of (fun r g b => rgba r g b alpha)
                          (draws (events run))).
Proof.
  cbv zeta. split.
  - intros other. now rewrite !rand_alpha_ellipses_outcome.
  - intros Hseed Hsize Halpha. apply finite_converts in Halpha.
    rewrite rand_alpha_ellipses_run by assumption.
    set (ds := List.concat (repeat _ (Z.to_nat n))).
    pose proof (sample_all_length ds (init_by_seed seed)) as Hxs.
    unfold outcome, events. cbn [fst snd].
    rewrite draws_app, drawn_from_app, displayed_app.
    rewrite draws_drawing, drawn_from_drawing, displayed_drawing
      by exact Hxs.
    cbn [draws drawn_from displayed]. rewrite !app_nil_r. cbn [app].
    split; [reflexivity|]. split.
    + exists (position_distribution pos_dist).
      split; [reflexivity|].
      unfold position_distribution.
      destruct (String.eqb_spec pos_dist "uniform"); split; congruence.
    + eexists. split; reflexivity.
Qed.

End NotebookProperties.

(** ** Runs on the small generator *)

Lemma rand_ellipses_places_n_circles_witness :
  0 <= 3
  /\ outcome (@rand_ellipses lcg 3 1) = Return tt
  /\ Z.of_nat (List.length (draws (events (@rand_ellipses lcg 3 1)))) = 6 * 3.
Proof.
  assert (H3 : 0 <= 3) by lia.
  split; [exact H3|].
  pose proof (@rand_ellipses_places_n_circles lcg 3 1 H3) as H.
  cbv zeta in H. destruct H as (Hout & Hlen & _).
  split; assumption.
Defined.

Lemma rand_ellipses_seed_prefix_witness :
  0 <= 2 <= 5
  /\ draws (events (@rand_ellipses_seed lcg 2 7)) =
     firstn 12 (draws (events (@rand_ellipses_seed lcg 5 99))).
Proof.
  assert (H : 0 <= 2 <= 5) by lia.
  split; [exact H|].
  exact (proj1 (@rand_ellipses_seed_prefix lcg 2 5 7 99 H)).
Defined.

Lemma rand_alpha_ellipses_pos_dist_witness :
  valid_seed 12345
  /\ @uniform_accepts lcg (PyInt 40) = true
  /\ @finite_number lcg (PyInt 127) = true
  /\ outcome (@rand_alpha_ellipses lcg 2 (PyInt 127) (PyInt 40)
                "Normal" 12345 0) = Return tt.
Proof.
  assert (H : valid_seed 12345) by (unfold valid_seed; lia).
  assert (Hs : @uniform_accepts lcg (PyInt 40) = true) by reflexivity.
  assert (Ha : @finite_number lcg (PyInt 127) = true) by reflexivity.
  split; [exact H|]. split; [exact Hs|]. split; [exact Ha|].
  exact (proj1 (proj2 (@rand_alpha_ellipses_pos_dist lcg 2 (PyInt 127)
                         (PyInt 40) "Normal" 12345 0) H Hs Ha)).
Defined.

(** C6, as stated, fails: for the int 2**1024 as size nothing is
    displayed, the call ending with [OverflowError]. *)
Lemma disp_square_huge_size_raises :
  @disp_square lcg (PyInt (2 ^ 1024)) 0 = (Raise OverflowError, 0, [])
  /\ outcome (@disp_square lcg (PyInt (2 ^ 1024)) 0) <> Return tt
  /\ displayed (events (@disp_square lcg (PyInt (2 ^ 1024)) 0)) = [].
Proof.
  split; [reflexivity|]. split; [discriminate|reflexivity].
Qed.

Lemma disp_square_scene_witness :
  @finite_number lcg (PyInt 35) = true
  /\ @converts lcg (PyInt (2 ^ 1024 - 2 ^ 970)) = false
  /\ outcome (@disp_square lcg (PyInt 35) 7) = Return tt
  /\ outcome (@disp_square lcg (PyInt (2 ^ 1024 - 2 ^ 970)) 7)
     = Raise OverflowError.
Proof.
  assert (Hok : @finite_number lcg (PyInt 35) = true) by reflexivity.
  assert (Hbad : @converts lcg (PyInt (2 ^ 1024 - 2 ^ 970)) = false)
    by reflexivity.
  split; [exact Hok|]. split; [exact Hbad|]. split.
  - now rewrite (proj1 (@disp_square_scene lcg (PyInt 35) 7) Hok).
  - now rewrite (proj2 (@disp_square_scene lcg (PyInt (2 ^ 1024 - 2 ^ 970)) 7)
                   Hbad).
Defined.

(** Without the seed the scene depends on the state of the generator at
    the call. *)
Example rand_ellipses_depends_on_state :
  draws (events (@rand_ellipses lcg 1 1))
  <> draws (events (@rand_ellipses lcg 1 2)).
Proof. vm_compute. discriminate. Qed.

Example rand_ellipses_seed_one :
  displayed (events (@rand_ellipses_seed lcg 1 0)) =
  displayed (events (@rand_ellipses_seed lcg 1 2024)).
Proof. reflexivity. Qed.

(** A value of [pos_dist] that is neither option of the dropdown selects
    the normal distribution. *)
Example rand_alpha_ellipses_other_string :
  drawn_from (events (@rand_alpha_ellipses lcg 1 (PyInt 127) (PyInt 40)
                        "Uniform" 12345 0))
  = [Uniform (PyInt 255); Uniform (PyInt 255); Uniform (PyInt 255);
     Normal (PyInt 40) (PyInt 20); Normal (PyInt 40) (PyInt 20);
     Uniform (PyInt 40)].
Proof. reflexivity. Qed.

Example rand_alpha_ellipses_seed_refused :
  outcome (@rand_alpha_ellipses lcg 1 (PyInt 127) (PyInt 40)
             "uniform" (-1) 0) = Raise ValueError.
Proof. reflexivity. Qed.

(** * Further properties *)

(** ** [hex2rgb]: what it reads, and what it returns *)

Section HexFurther.

Import HexSpec.
Local Open Scope string_scope.

Lemma lstrip_shorter (s chars : string) :
  (String.length (Py.lstrip s chars) <= String.length s)%nat.
Proof.
  induction s as [|c s IH]; simpl.
  - lia.
  - destruct (Py.mem c chars); simpl; lia.
Qed.

Lemma lstrip_append (s t chars : string) :
  Py.lstrip s chars <> EmptyString ->
  Py.lstrip (s ++ t) chars = Py.lstrip s chars ++ t.
Proof.
  induction s as [|c s IH]; simpl; intros Hne.
  - congruence.
  - destruct (Py.mem c chars); auto.
Qed.

Lemma drop_append (n : nat) (s t : string) :
  (n <= String.length s)%nat ->
  Py.drop n (s ++ t) = Py.drop n s ++ t.
Proof.
  revert s. induction n as [|n IH]; intros [|c s] Hn; simpl in *;
    try reflexivity; try lia.
  apply IH. lia.
Qed.

Lemma drop_length (n : nat) (s : string) :
  String.length (Py.drop n s) = (String.length s - n)%nat.
Proof.
  revert s. induction n as [|n IH]; intros [|c s]; simpl; auto; lia.
Qed.

Lemma take_append (n : nat) (s t : string) :
  (n <= String.length s)%nat ->
  Py.take n (s ++ t) = Py.take n s.
Proof.
  revert s. induction n as [|n IH]; intros [|c s] Hn; simpl in *;
    try reflexivity; try lia.
  f_equal. apply IH. lia.
Qed.

Lemma append_length (s t : string) :
  String.length (s ++ t) = (String.length s + String.length t)%nat.
Proof.
  induction s as [|c s IH]; simpl; auto.
Qed.

(** A slice between two positions of the string is the plain
    extraction. *)
Lemma slice_within (s : string) (i j : Z) :
  0 <= i <= j -> j <= Z.of_nat (String.length s) ->
  Py.slice s i j = Py.take (Z.to_nat (j - i)) (Py.drop (Z.to_nat i) s).
Proof.
  intros Hij Hj. unfold Py.slice, Py.clamp.
  destruct (Z.ltb_spec i 0); [lia|].
  destruct (Z.ltb_spec j 0); [lia|].
  now rewrite !Z.min_l by lia.
Qed.

Lemma slice_append (s t : string) (i j : Z) :
  0 <= i <= j -> j <= Z.of_nat (String.length s) ->
  Py.slice (s ++ t) i j = Py.slice s i j.
Proof.
  intros Hij Hj.
  rewrite !slice_within; try assumption.
  - rewrite drop_append by lia.
    apply take_append. rewrite drop_length. lia.
  - rewrite append_length. lia.
Qed.

(** What [int(s, 16)] can return on at most two characters. *)
Lemma int_short_range (s : string) (v : Z) :
  (String.length s <= 2)%nat ->
  Py.int s 16 = Return v -> -15 <= v <= 255.
Proof.
  intros Hlen Hv.
  destruct s as [|c1 [|c2 [|c3 s]]]; [discriminate Hv | | |simpl in Hlen; lia].
  - assert (H : match Py.int (String c1 EmptyString) 16 with
                | Return v => (-15 <=? v)%Z && (v <=? 255)%Z
                | Raise _ => true
                end = true).
    { clear. revert c1. apply for_all_spec. vm_compute. reflexivity. }
    rewrite Hv in H. apply andb_prop in H. lia.
  - assert (H : match Py.int (String c1 (String c2 EmptyString)) 16 with
                | Return v => (-15 <=? v)%Z && (v <=? 255)%Z
                | Raise _ => true
                end = true).
    { clear. revert c1 c2.
      apply (for_all2_spec (fun c1 c2 =>
        match Py.int (String c1 (String c2 EmptyString)) 16 with
        | Return v => (-15 <=? v)%Z && (v <=? 255)%Z
        | Raise _ => true
        end)).
      vm_compute. reflexivity. }
    rewrite Hv in H. apply andb_prop in H. lia.
Qed.

Lemma int_one_hexdigit (c : ascii) (v : Z) :
  hexdigit c = Some v -> Py.int (String c EmptyString) 16 = Return v.
Proof.
  intros Hc.
  assert (H : match hexdigit c, Py.int (String c EmptyString) 16 with
              | Some v, Return w => Z.eqb w v
              | Some _, Raise _ => false
              | None, _ => true
              end = true).
  { clear. revert c. apply for_all_spec. vm_compute. reflexivity. }
  rewrite Hc in H.
  destruct (Py.int (String c EmptyString) 16) as [w|e]; [|discriminate].
  apply Z.eqb_eq in H. now subst.
Qed.

(** X1.  Whenever [hex2rgb] returns, it returns exactly three integers,
    each between -15 and 255: a component can be negative, since a slice
    made of a minus sign and a digit is read as a number. *)
Theorem hex2rgb_three_bounded (s : string) (l : list Z) :
  hex2rgb s = Return l ->
  exists r g b,
    l = [r; g; b]
    /\ -15 <= r <= 255 /\ -15 <= g <= 255 /\ -15 <= b <= 255.
Proof.
  rewrite hex2rgb_unfold. cbv zeta.
  set (t := Py.lstrip s "#").
  destruct (Py.int (Py.slice t 0 2) 16) as [r|] eqn:Hr; [|discriminate].
  destruct (Py.int (Py.slice t 2 4) 16) as [g|] eqn:Hg; [|discriminate].
  destruct (Py.int (Py.slice t 4 6) 16) as [b|] eqn:Hb; [|discriminate].
  simpl. intros H. injection H as <-.
  exists r, g, b. split; [reflexivity|].
  split; [|split].
  - apply (int_short_range _ _ (slice_two_length t 0 ltac:(lia)) Hr).
  - apply (int_short_range _ _ (slice_two_length t 2 ltac:(lia)) Hg).
  - apply (int_short_range _ _ (slice_two_length t 4 ltac:(lia)) Hb).
Qed.

(** X2.  Only the first six characters after the leading '#' characters
    are read: when at least six characters remain after them, adding
    '#' characters in front or any text behind changes neither the
    triplet returned nor whether [ValueError] is raised. *)
Theorem hex2rgb_reads_six (k : nat) (s t : string) :
  (6 <= String.length (Py.lstrip s "#"))%nat ->
  hex2rgb (hashes k ++ s ++ t) = hex2rgb s.
Proof.
  intros Hlen.
  rewrite !hex2rgb_unfold, lstrip_hashes. cbv zeta.
  rewrite lstrip_append.
  2:{ intros E. rewrite E in Hlen. simpl in Hlen. lia. }
  rewrite !slice_append by lia.
  reflexivity.
Qed.

(** X3.  A string with fewer than five characters besides its leading
    '#' characters always raises [ValueError]; the empty string, a lone
    '#' and the three-digit colors are such strings. *)
Theorem hex2rgb_too_short (k : nat) (s : string) :
  (String.length s < 5)%nat ->
  hex2rgb (hashes k ++ s) = Raise ValueError.
Proof.
  intros Hlen. apply hex2rgb_short_raises.
  rewrite lstrip_hashes.
  pose proof (lstrip_shorter s "#"). lia.
Qed.

(** X4.  Five hexadecimal digits are not refused: the first two pairs
    are read as usual and the fifth digit alone gives the last
    component. *)
Theorem hex2rgb_five_digits (k : nat) (d1 d2 d3 d4 d5 : ascii)
  (v1 v2 v3 v4 v5 : Z) :
  hexdigit d1 = Some v1 -> hexdigit d2 = Some v2 ->
  hexdigit d3 = Some v3 -> hexdigit d4 = Some v4 ->
  hexdigit d5 = Some v5 ->
  hex2rgb (hashes k ++
           String d1 (String d2 (String d3
             (String d4 (String d5 EmptyString)))))
  = Return [16 * v1 + v2; 16 * v3 + v4; v5].
Proof.
  intros H1 H2 H3 H4 H5.
  rewrite hex2rgb_unfold, lstrip_hashes. cbv zeta.
  replace (Py.lstrip _ "#")
    with (String d1 (String d2 (String d3
           (String d4 (String d5 EmptyString))))).
  2:{ cbn [Py.lstrip]. now rewrite (hexdigit_not_hash _ _ H1). }
  change (Py.slice _ 0 2) with (String d1 (String d2 EmptyString)).
  change (Py.slice _ 2 4) with (String d3 (String d4 EmptyString)).
  change (Py.slice _ 4 6) with (String d5 EmptyString).
  rewrite (int_two_hexdigits _ _ _ _ H1 H2),
          (int_two_hexdigits _ _ _ _ H3 H4),
          (int_one_hexdigit _ _ H5).
  reflexivity.
Qed.

Lemma hex2rgb_three_bounded_witness :
  hex2rgb "-f-fff" = Return [-15; -15; 255]
  /\ exists r g b,
       [-15; -15; 255] = [r; g; b]
       /\ -15 <= r <= 255 /\ -15 <= g <= 255 /\ -15 <= b <= 255.
Proof.
  split; [reflexivity|].
  apply (hex2rgb_three_bounded "-f-fff"). reflexivity.
Defined.

Lemma hex2rgb_reads_six_witness :
  (6 <= String.length (Py.lstrip "804080" "#"))%nat
  /\ hex2rgb "##804080ff" = hex2rgb "804080".
Proof.
  assert (H : (6 <= String.length (Py.lstrip "804080" "#"))%nat)
    by (simpl; lia).
  split; [exact H|].
  exact (hex2rgb_reads_six 2 "804080" "ff" H).
Defined.

Lemma hex2rgb_too_short_witness :
  (String.length "fff" < 5)%nat
  /\ hex2rgb "#fff" = Raise ValueError.
Proof.
  assert (H : (String.length "fff" < 5)%nat) by (simpl; lia).
  split; [exact H|].
  exact (hex2rgb_too_short 1 "fff" H).
Defined.

Lemma hex2rgb_five_digits_witness :
  hexdigit "1" = Some 1 /\ hexdigit "5" = Some 5
  /\ hex2rgb "#12345" = Return [18; 52; 5].
Proof.
  split; [reflexivity|]. split; [reflexivity|].
  exact (hex2rgb_five_digits 1 "1" "2" "3" "4" "5" 1 2 3 4 5
           eq_refl eq_refl eq_refl eq_refl eq_refl).
Defined.

End HexFurther.

(** ** The random cells: edge cases and how the calls compose *)

Section NotebookFurther.

Context {numpy : NumpyRandom}.

Local Abbreviation number := (pynum float64).

Lemma scene_draws (ds : list (distribution float64)) (xs : list float64)
  (pg : page number) :
  List.length xs = List.length ds ->
  draws (drawing ds xs ++ [Display (SVG (svg pg))]) = xs.
Proof.
  intros Hlen. rewrite draws_app, draws_drawing by exact Hlen.
  simpl. apply app_nil_r.
Qed.

Lemma scene_drawn_from (ds : list (distribution float64))
  (xs : list float64) (pg : page number) :
  List.length xs = List.length ds ->
  drawn_from (drawing ds xs ++ [Display (SVG (svg pg))]) = ds.
Proof.
  intros Hlen. rewrite drawn_from_app, drawn_from_drawing by exact Hlen.
  simpl. apply app_nil_r.
Qed.

Lemma scene_displayed (ds : list (distribution float64))
  (xs : list float64) (pg : page number) :
  displayed (drawing ds xs ++ [Display (SVG (svg pg))]) = [pg].
Proof.
  rewrite displayed_app, displayed_drawing. reflexivity.
Qed.

Lemma ellipses_of_alpha (alpha : number) (k : nat) (xs : list float64) :
  List.length xs = (6 * k)%nat ->
  Forall (fun it =>
            match it with
            | ellipse p _ _ _ _ =>
                exists r g b, pen_fill p = solid (rgba r g b alpha)
            | rectangle _ _ _ _ _ => False
            end)
         (ellipses_of (fun r g b => rgba r g b alpha) xs).
Proof.
  revert xs. induction k as [|k IH]; intros xs Hlen.
  - destruct xs; [constructor | simpl in Hlen; lia].
  - destruct xs as [|r [|g [|b [|x [|y [|s xs]]]]]]; simpl in Hlen; try lia.
    simpl. constructor.
    + simpl. eauto.
    + apply IH. lia.
Qed.

(** X5.  A count that is zero or negative is not an error: both
    [rand_ellipses] and [rand_ellipses_seed] then display the empty 80 by
    80 mm page without taking a sample.  The first leaves the generator
    as it was; the second has still replaced its state by that of seed
    12345. *)
Theorem rand_ellipses_nonpositive (n : Z) (g : RandomState) :
  n <= 0 ->
  let blank :=
    {| page_width := PyInt 80; page_height := PyInt 80;
       page_units := "mm"; items := [] |} in
  rand_ellipses n g = (Return tt, g, [Display (SVG (svg blank))])
  /\ rand_ellipses_seed n g =
     (Return tt, init_by_seed 12345, [Display (SVG (svg blank))]).
Proof.
  intros Hn. cbv zeta.
  rewrite rand_ellipses_run, rand_ellipses_seed_run.
  replace (Z.to_nat n) with 0%nat by lia.
  split; reflexivity.
Qed.

(** X6.  Without a seed, consecutive calls continue one stream of
    samples: [rand_ellipses n] followed by [rand_ellipses m] takes the
    samples that [rand_ellipses (n + m)] takes from the same starting
    state and ends in the same state, and the ellipses of the two pages,
    in order, are those of the single page; the second call therefore
    never repeats the picture of the first. *)
Theorem rand_ellipses_consecutive (n m : Z) (g : RandomState) :
  0 <= n -> 0 <= m ->
  let run1 := rand_ellipses n g in
  let run2 := rand_ellipses m (final_state run1) in
  let run := rand_ellipses (n + m) g in
  draws (events run) = draws (events run1) ++ draws (events run2)
  /\ final_state run = final_state run2
  /\ exists pg1 pg2 pg,
       displayed (events run1) = [pg1]
       /\ displayed (events run2) = [pg2]
       /\ displayed (events run) = [pg]
       /\ items pg = items pg1 ++ items pg2.
Proof.
  intros Hn Hm. cbv zeta. rewrite !rand_ellipses_run.
  unfold final_state, events. cbn [fst snd].
  replace (Z.to_nat (n + m)) with (Z.to_nat n + Z.to_nat m)%nat by lia.
  rewrite rounds_app.
  set (dpos := Uniform (PyInt 80)). set (dsize := Uniform (PyInt 40)).
  set (ds1 := List.concat (repeat (six dpos dsize) (Z.to_nat n))).
  set (ds2 := List.concat (repeat (six dpos dsize) (Z.to_nat m))).
  pose proof (sample_all_length ds1 g) as Hxs1.
  pose proof (sample_all_length ds2 (snd (sample_all ds1 g))) as Hxs2.
  pose proof (sample_all_length (ds1 ++ ds2) g) as Hxs.
  pose proof (rounds_length dpos dsize (Z.to_nat n)) as Hds1.
  fold ds1 in Hds1.
  rewrite !scene_draws, !scene_displayed by assumption.
  rewrite sample_all_app. cbn [fst snd].
  split; [reflexivity|]. split; [reflexivity|].
  do 3 eexists. repeat (split; [reflexivity|]).
  cbn [put_items items addpage app].
  apply (ellipses_of_app rgb (Z.to_nat n)). now rewrite Hxs1.
Qed.

(** X7.  The seed outlives the call: after [rand_ellipses_seed n], from
    any state of the generator, an unseeded [rand_ellipses m] is as
    reproducible as the seeded call itself.  The two calls together take
    the samples of [rand_ellipses_seed (n + m)], and the second page holds
    the ellipses that come after the first n on that call's page. *)
Theorem rand_ellipses_after_seed (n m : Z) (g g' : RandomState) :
  0 <= n -> 0 <= m ->
  let both := bind (rand_ellipses_seed n) (fun _ => rand_ellipses m) g in
  let whole := rand_ellipses_seed (n + m) g' in
  outcome both = Return tt
  /\ draws (events both) = draws (events whole)
  /\ final_state both = final_state whole
  /\ exists pg1 pg2 pg,
       displayed (events both) = [pg1; pg2]
       /\ displayed (events whole) = [pg]
       /\ items pg = items pg1 ++ items pg2
       /\ items pg2 = skipn (Z.to_nat n) (items pg).
Proof.
  intros Hn Hm. cbv zeta. unfold bind.
  rewrite !rand_ellipses_seed_run, rand_ellipses_run.
  unfold outcome, final_state, events. cbn [fst snd].
  replace (Z.to_nat (n + m)) with (Z.to_nat n + Z.to_nat m)%nat by lia.
  rewrite rounds_app.
  set (dpos := Uniform (PyInt 80)). set (dsize := Uniform (PyInt 40)).
  set (ds1 := List.concat (repeat (six dpos dsize) (Z.to_nat n))).
  set (ds2 := List.concat (repeat (six dpos dsize) (Z.to_nat m))).
  set (g0 := init_by_seed 12345).
  pose proof (sample_all_length ds1 g0) as Hxs1.
  pose proof (sample_all_length ds2 (snd (sample_all ds1 g0))) as Hxs2.
  pose proof (sample_all_length (ds1 ++ ds2) g0) as Hxs.
  pose proof (rounds_length dpos dsize (Z.to_nat n)) as Hds1.
  fold ds1 in Hds1.
  rewrite draws_app, displayed_app.
  rewrite !scene_draws, !scene_displayed by assumption.
  rewrite sample_all_app. cbn [fst snd].
  split; [reflexivity|]. split; [reflexivity|]. split; [reflexivity|].
  do 3 eexists. split; [reflexivity|]. split; [reflexivity|].
  cbn [put_items items addpage app].
  assert (Happ := ellipses_of_app rgb (Z.to_nat n)
                    (fst (sample_all ds1 g0))
                    (fst (sample_all ds2 (snd (sample_all ds1 g0))))).
  rewrite Happ by now rewrite Hxs1.
  split; [reflexivity|].
  pose proof (ellipses_of_length rgb (Z.to_nat n)
                (fst (sample_all ds1 g0))) as Hlen.
  rewrite <- Hlen at 1 by now rewrite Hxs1.
  rewrite skipn_app, skipn_all, Nat.sub_diag. reflexivity.
Qed.

(** X8.  Called with the values its parameters default to for the
    size bound, the position distribution and the seed (40, "uniform",
    12345), [rand_alpha_ellipses] takes exactly the samples of
    [rand_ellipses_seed], from the same distributions, and ends in the
    same state, whatever the alpha.  With an alpha that is a finite
    number it returns normally, and the two pages are built from the same
    samples, the only difference being the rgba fill with the given alpha
    in place of the rgb fill. *)
Theorem rand_alpha_ellipses_defaults (n : Z) (alpha : number)
  (g1 g2 : RandomState) :
  let runA :=
    rand_alpha_ellipses n alpha (PyInt 40) "uniform" 12345 g1 in
  let runS := rand_ellipses_seed n g2 in
  draws (events runA) = draws (events runS)
  /\ drawn_from (events runA) = drawn_from (events runS)
  /\ final_state runA = final_state runS
  /\ (finite_number alpha = true ->
      outcome runA = Return tt
      /\ exists pgA pgS,
           displayed (events runA) = [pgA]
           /\ displayed (events runS) = [pgS]
           /\ items pgS = ellipses_of rgb (draws (events runS))
           /\ items pgA =
              ellipses_of (fun r g b => rgba r g b alpha)
                          (draws (events runS))).
Proof.
  cbv zeta.
  assert (Hseed : valid_seed 12345) by (unfold valid_seed; lia).
  assert (Hsize : uniform_accepts (PyInt 40) = true)
    by (apply uniform_accepts_small; simpl; lia).
  rewrite rand_ellipses_seed_run.
  set (ds := List.concat (repeat _ (Z.to_nat n))).
  pose proof (sample_all_length ds (init_by_seed 12345)) as Hxs.
  destruct (converts alpha) eqn:Halpha.
  - rewrite rand_alpha_ellipses_run by assumption.
    change (position_distribution "uniform")
      with (@Uniform float64 (PyInt 80)).
    fold ds.
    unfold outcome, final_state, events. cbn [fst snd].
    rewrite !scene_draws, !scene_drawn_from, !scene_displayed
      by assumption.
    split; [reflexivity|]. split; [reflexivity|]. split; [reflexivity|].
    intros _. split; [reflexivity|].
    do 2 eexists. repeat (split; [reflexivity|]). reflexivity.
  - unfold final_state, events. cbn [fst snd].
    rewrite scene_draws, scene_drawn_from by assumption.
    destruct (Z.ltb_spec 0 n) as [Hn|Hn].
    + rewrite rand_alpha_ellipses_bad_alpha by assumption.
      change (position_distribution "uniform")
        with (@Uniform float64 (PyInt 80)).
      fold ds. cbn [fst snd].
      rewrite draws_drawing, drawn_from_drawing by assumption.
      split; [reflexivity|]. split; [reflexivity|]. split; [reflexivity|].
      intros Hfin. apply finite_converts in Hfin. congruence.
    + rewrite rand_alpha_ellipses_none by (assumption || lia).
      unfold ds. replace (Z.to_nat n) with 0%nat by lia.
      cbn. split; [reflexivity|]. split; [reflexivity|].
      split; [reflexivity|].
      intros Hfin. apply finite_converts in Hfin. congruence.
Qed.

(** X9.  The three ways [rand_alpha_ellipses] fails, in the order the
    code meets them.  A seed outside 0 .. 2^32 - 1 raises [ValueError]
    before anything else: nothing is sampled or displayed and the
    generator is as it was.  With an accepted seed and at least one
    ellipse to draw, a size bound that [np.random.uniform] refuses raises
    [OverflowError] in the first round, after exactly five samples; an
    int alpha too large for a double raises [OverflowError] at the end,
    when the page is written out, after all 6 n samples.  In both cases
    nothing is displayed.  With no ellipse to draw, or with the size bound
    accepted and the alpha a finite number, the call returns normally. *)
Theorem rand_alpha_ellipses_errors (n : Z) (alpha max_size : number)
  (pos_dist : string) (seed : Z) (g : RandomState) :
  let run := rand_alpha_ellipses n alpha max_size pos_dist seed g in
  (seed < 0 \/ 2 ^ 32 - 1 < seed ->
   run = (Raise ValueError, g, []))
  /\ (valid_seed seed -> 0 < n -> uniform_accepts max_size = false ->
      outcome run = Raise OverflowError
      /\ List.length (draws (events run)) = 5%nat
      /\ displayed (events run) = [])
  /\ (valid_seed seed -> 0 < n -> uniform_accepts max_size = true ->
      converts alpha = false ->
      outcome run = Raise OverflowError
      /\ Z.of_nat (List.length (draws (events run))) = 6 * n
      /\ displayed (events run) = [])
  /\ (valid_seed seed ->
      n <= 0
      \/ (uniform_accepts max_size = true /\ finite_number alpha = true) ->
      outcome run = Return tt).
Proof.
  cbv zeta. split; [|split; [|split]].
  - intros Hbad. apply rand_alpha_ellipses_bad_seed.
    unfold valid_seed. lia.
  - intros Hseed Hn Hsize.
    rewrite rand_alpha_ellipses_bad_size by assumption.
    set (ds := [_; _; _; _; _]).
    pose proof (sample_all_length ds (init_by_seed seed)) as Hxs.
    unfold outcome, events. cbn [fst snd].
    rewrite draws_drawing, displayed_drawing by exact Hxs.
    now rewrite Hxs.
  - intros Hseed Hn Hsize Halpha.
    rewrite rand_alpha_ellipses_bad_alpha by assumption.
    set (ds := List.concat (repeat _ (Z.to_nat n))).
    pose proof (sample_all_length ds (init_by_seed seed)) as Hxs.
    unfold outcome, events. cbn [fst snd].
    rewrite draws_drawing, displayed_drawing by exact Hxs.
    rewrite Hxs. unfold ds. rewrite rounds_length.
    repeat split. lia.
  - intros Hseed [Hn|[Hsize Halpha]].
    + now rewrite rand_alpha_ellipses_none.
    + apply finite_converts in Halpha.
      now rewrite rand_alpha_ellipses_run.
Qed.

(** X10.  The count only adds ellipses, for every setting of the other
    controls that the call accepts: with the seed and the size bound
    accepted, the alpha a finite number and 0 <= n1 <= n2, the page of
    [rand_alpha_ellipses]
    for n1 holds the first n1 ellipses of its page for n2, and its samples
    are the first 6 n1 samples of that run. *)
Theorem rand_alpha_ellipses_prefix (n1 n2 : Z) (alpha max_size : number)
  (pos_dist : string) (seed : Z) (g1 g2 : RandomState) :
  valid_seed seed ->
  uniform_accepts max_size = true ->
  finite_number alpha = true ->
  0 <= n1 <= n2 ->
  let run1 := rand_alpha_ellipses n1 alpha max_size pos_dist seed g1 in
  let run2 := rand_alpha_ellipses n2 alpha max_size pos_dist seed g2 in
  draws (events run1) = firstn (6 * Z.to_nat n1) (draws (events run2))
  /\ exists pg1 pg2,
       displayed (events run1) = [pg1]
       /\ displayed (events run2) = [pg2]
       /\ items pg1 = firstn (Z.to_nat n1) (items pg2).
Proof.
  intros Hseed Hsize Halpha [H1 H12]. cbv zeta.
  apply finite_converts in Halpha.
  rewrite !rand_alpha_ellipses_run by assumption.
  set (dpos := position_distribution pos_dist).
  set (dsize := Uniform max_size).
  set (col := fun r g b : number => rgba r g b alpha).
  replace (Z.to_nat n2) with (Z.to_nat n1 + Z.to_nat (n2 - n1))%nat by lia.
  rewrite rounds_app.
  set (a := Z.to_nat n1). set (b := Z.to_nat (n2 - n1)).
  set (ds1 := List.concat (repeat (six dpos dsize) a)).
  set (ds2 := List.concat (repeat (six dpos dsize) b)).
  set (g0 := init_by_seed seed).
  pose proof (sample_all_length ds1 g0) as Hxs1.
  pose proof (sample_all_length (ds1 ++ ds2) g0) as Hxs.
  pose proof (rounds_length dpos dsize a) as Hds1. fold ds1 in Hds1.
  unfold events. cbn [snd].
  rewrite !scene_draws, !scene_displayed by assumption.
  rewrite sample_all_app. cbn [fst].
  set (xs1 := fst (sample_all ds1 g0)) in *.
  set (xs2 := fst (sample_all ds2 (snd (sample_all ds1 g0)))).
  assert (Hl1 : List.length xs1 = (6 * a)%nat) by now rewrite Hxs1.
  split.
  - rewrite <- Hl1, firstn_app, firstn_all, Nat.sub_diag.
    cbn [firstn]. now rewrite app_nil_r.
  - do 2 eexists. split; [reflexivity|]. split; [reflexivity|].
    cbn [put_items items addpage app].
    rewrite (ellipses_of_app col a) by exact Hl1.
    pose proof (ellipses_of_length col a xs1 Hl1) as Hi1.
    rewrite <- Hi1 at 1.
    rewrite firstn_app, firstn_all, Nat.sub_diag.
    cbn [firstn]. now rewrite app_nil_r.
Qed.

(** X11.  The alpha only recolors: with the seed and the size bound
    accepted, two calls of [rand_alpha_ellipses] that differ in alpha
    alone, both alphas finite numbers, started from any two states of
    the generator, take the same samples and end
    in the same state, and their pages are built from those same samples,
    each with its own alpha in the fill. *)
Theorem rand_alpha_ellipses_recolor (n : Z) (alpha1 alpha2 max_size : number)
  (pos_dist : string) (seed : Z) (g1 g2 : RandomState) :
  valid_seed seed ->
  uniform_accepts max_size = true ->
  finite_number alpha1 = true ->
  finite_number alpha2 = true ->
  let run1 := rand_alpha_ellipses n alpha1 max_size pos_dist seed g1 in
  let run2 := rand_alpha_ellipses n alpha2 max_size pos_dist seed g2 in
  draws (events run1) = draws (events run2)
  /\ drawn_from (events run1) = drawn_from (events run2)
  /\ final_state run1 = final_state run2
  /\ exists pg1 pg2,
       displayed (events run1) = [pg1]
       /\ displayed (events run2) = [pg2]
       /\ items pg1 =
          ellipses_of (fun r g b => rgba r g b alpha1) (draws (events run1))
       /\ items pg2 =
          ellipses_of (fun r g b => rgba r g b alpha2) (draws (events run1)).
Proof.
  intros Hseed Hsize Ha1 Ha2. cbv zeta.
  apply finite_converts in Ha1, Ha2.
  rewrite !rand_alpha_ellipses_run by assumption.
  set (ds := List.concat (repeat _ (Z.to_nat n))).
  pose proof (sample_all_length ds (init_by_seed seed)) as Hxs.
  unfold final_state, events. cbn [fst snd].
  rewrite !scene_draws, !scene_drawn_from, !scene_displayed by assumption.
  repeat (split; [reflexivity|]).
  do 2 eexists. repeat (split; [reflexivity|]). reflexivity.
Qed.

(** X12.  With the seed and the size bound accepted, the alpha a finite
    number and n >= 0, [rand_alpha_ellipses] takes exactly 6 n samples
    and displays
    one 80 by 80 mm page with exactly n items, each an ellipse without
    stroke whose two radii are equal and whose fill is an rgba color
    carrying the alpha it was given. *)
Theorem rand_alpha_ellipses_places_n_circles (n : Z)
  (alpha max_size : number) (pos_dist : string) (seed : Z)
  (g : RandomState) :
  valid_seed seed ->
  uniform_accepts max_size = true ->
  finite_number alpha = true ->
  0 <= n ->
  let run := rand_alpha_ellipses n alpha max_size pos_dist seed g in
  Z.of_nat (List.length (draws (events run))) = 6 * n
  /\ exists pg,
       displayed (events run) = [pg]
       /\ page_width pg = PyInt 80
       /\ page_height pg = PyInt 80
       /\ page_units pg = "mm"%string
       /\ Z.of_nat (List.length (items pg)) = n
       /\ Forall is_circle (items pg)
       /\ Forall (fun it =>
                    match it with
                    | ellipse p _ _ _ _ =>
                        exists r g b, pen_fill p = solid (rgba r g b alpha)
                    | rectangle _ _ _ _ _ => False
                    end) (items pg).
Proof.
  intros Hseed Hsize Halpha Hn. cbv zeta.
  apply finite_converts in Halpha.
  rewrite rand_alpha_ellipses_run by assumption.
  set (dpos := position_distribution pos_dist).
  set (dsize := Uniform max_size).
  set (ds := List.concat (repeat _ (Z.to_nat n))).
  pose proof (sample_all_length ds (init_by_seed seed)) as Hxs.
  pose proof (rounds_length dpos dsize (Z.to_nat n)) as Hds. fold ds in Hds.
  unfold events. cbn [snd].
  rewrite scene_draws, scene_displayed by assumption.
  set (xs := fst (sample_all ds (init_by_seed seed))) in *.
  assert (Hl : List.length xs = (6 * Z.to_nat n)%nat) by now rewrite Hxs.
  split; [rewrite Hl; lia|].
  eexists. split; [reflexivity|].
  cbn [put_items page_width page_height page_units items addpage
       document Flat.doc_width Flat.doc_height Flat.doc_units app].
  split; [reflexivity|]. split; [reflexivity|]. split; [reflexivity|].
  split; [|split].
  - rewrite (ellipses_of_length _ (Z.to_nat n)) by exact Hl. lia.
  - now apply (ellipses_of_circles _ _ (Z.to_nat n)).
  - now apply (ellipses_of_alpha alpha (Z.to_nat n)).
Qed.

End NotebookFurther.

(** ** Further runs on the small generator *)

Lemma rand_ellipses_nonpositive_witness :
  -3 <= 0
  /\ draws (events (@rand_ellipses lcg (-3) 5)) = []
  /\ final_state (@rand_ellipses_seed lcg (-3) 5) = 12345.
Proof.
  assert (H : -3 <= 0) by lia.
  split; [exact H|].
  destruct (@rand_ellipses_nonpositive lcg (-3) 5 H) as [H1 H2].
  rewrite H1, H2. split; reflexivity.
Defined.

Lemma rand_ellipses_consecutive_witness :
  0 <= 1 /\ 0 <= 2
  /\ draws (events (@rand_ellipses lcg 3 7)) =
     draws (events (@rand_ellipses lcg 1 7)) ++
     draws (events (@rand_ellipses lcg 2
                      (final_state (@rand_ellipses lcg 1 7)))).
Proof.
  assert (H1 : 0 <= 1) by lia. assert (H2 : 0 <= 2) by lia.
  split; [exact H1|]. split; [exact H2|].
  exact (proj1 (@rand_ellipses_consecutive lcg 1 2 7 H1 H2)).
Defined.

Lemma rand_ellipses_after_seed_witness :
  0 <= 1 /\ 0 <= 2
  /\ outcome (bind (@rand_ellipses_seed lcg 1)
                   (fun _ => @rand_ellipses lcg 2) 7) = Return tt.
Proof.
  assert (H1 : 0 <= 1) by lia. assert (H2 : 0 <= 2) by lia.
  split; [exact H1|]. split; [exact H2|].
  exact (proj1 (@rand_ellipses_after_seed lcg 1 2 7 8 H1 H2)).
Defined.

Lemma rand_alpha_ellipses_defaults_witness :
  @finite_number lcg (PyInt 255) = true
  /\ outcome (@rand_alpha_ellipses lcg 10 (PyInt 255) (PyInt 40)
                "uniform" 12345 3) = Return tt.
Proof.
  assert (Ha : @finite_number lcg (PyInt 255) = true) by reflexivity.
  split; [exact Ha|].
  exact (proj1 (proj2 (proj2 (proj2
           (@rand_alpha_ellipses_defaults lcg 10 (PyInt 255) 3 4))) Ha)).
Defined.

Lemma rand_alpha_ellipses_errors_witness :
  (4294967296 < 0 \/ 2 ^ 32 - 1 < 4294967296)
  /\ valid_seed 99999 /\ 0 < 3
  /\ @uniform_accepts lcg (PyInt (2 ^ 1024)) = false
  /\ @uniform_accepts lcg (PyInt 40) = true
  /\ @converts lcg (PyInt (2 ^ 1024)) = false
  /\ @rand_alpha_ellipses lcg 3 (PyInt 127) (PyInt 40)
       "normal" 4294967296 1 = (Raise ValueError, 1, [])
  /\ List.length (draws (events
       (@rand_alpha_ellipses lcg 3 (PyInt 127) (PyInt (2 ^ 1024))
          "normal" 99999 1))) = 5%nat
  /\ outcome (@rand_alpha_ellipses lcg 3 (PyInt (2 ^ 1024)) (PyInt 40)
                "normal" 99999 1) = Raise OverflowError
  /\ outcome (@rand_alpha_ellipses lcg 3 (PyInt 127) (PyInt 40)
                "normal" 99999 1) = Return tt.
Proof.
  assert (Hbad : 4294967296 < 0 \/ 2 ^ 32 - 1 < 4294967296) by lia.
  assert (Hok : valid_seed 99999) by (unfold valid_seed; lia).
  assert (Hn : 0 < 3) by lia.
  assert (Hs0 : @uniform_accepts lcg (PyInt (2 ^ 1024)) = false)
    by reflexivity.
  assert (Hs1 : @uniform_accepts lcg (PyInt 40) = true) by reflexivity.
  assert (Ha0 : @converts lcg (PyInt (2 ^ 1024)) = false) by reflexivity.
  assert (Ha1 : @finite_number lcg (PyInt 127) = true) by reflexivity.
  split; [exact Hbad|]. split; [exact Hok|]. split; [exact Hn|].
  split; [exact Hs0|]. split; [exact Hs1|]. split; [exact Ha0|].
  split; [|split; [|split]].
  - exact (proj1 (@rand_alpha_ellipses_errors lcg 3 (PyInt 127) (PyInt 40)
                    "normal" 4294967296 1) Hbad).
  - exact (proj1 (proj2 (proj1 (proj2
             (@rand_alpha_ellipses_errors lcg 3 (PyInt 127)
                (PyInt (2 ^ 1024)) "normal" 99999 1)) Hok Hn Hs0))).
  - exact (proj1 (proj1 (proj2 (proj2
             (@rand_alpha_ellipses_errors lcg 3 (PyInt (2 ^ 1024))
                (PyInt 40) "normal" 99999 1))) Hok Hn Hs1 Ha0)).
  - exact (proj2 (proj2 (proj2
             (@rand_alpha_ellipses_errors lcg 3 (PyInt 127) (PyInt 40)
                "normal" 99999 1))) Hok (or_intror (conj Hs1 Ha1))).
Defined.

Lemma rand_alpha_ellipses_prefix_witness :
  valid_seed 7 /\ 0 <= 1 <= 4
  /\ @uniform_accepts lcg (PyInt 40) = true
  /\ @finite_number lcg (PyInt 127) = true
  /\ draws (events (@rand_alpha_ellipses lcg 1 (PyInt 127) (PyInt 40)
                      "normal" 7 0)) =
     firstn 6 (draws (events (@rand_alpha_ellipses lcg 4 (PyInt 127)
                                (PyInt 40) "normal" 7 3))).
Proof.
  assert (Hs : valid_seed 7) by (unfold valid_seed; lia).
  assert (Hn : 0 <= 1 <= 4) by lia.
  assert (Hm : @uniform_accepts lcg (PyInt 40) = true) by reflexivity.
  assert (Ha : @finite_number lcg (PyInt 127) = true) by reflexivity.
  split; [exact Hs|]. split; [exact Hn|]. split; [exact Hm|].
  split; [exact Ha|].
  exact (proj1 (@rand_alpha_ellipses_prefix lcg 1 4 (PyInt 127) (PyInt 40)
                  "normal" 7 0 3 Hs Hm Ha Hn)).
Defined.

Lemma rand_alpha_ellipses_recolor_witness :
  valid_seed 7
  /\ @uniform_accepts lcg (PyInt 40) = true
  /\ @finite_number lcg (PyInt 0) = true
  /\ @finite_number lcg (PyInt 255) = true
  /\ draws (events (@rand_alpha_ellipses lcg 2 (PyInt 0) (PyInt 40)
                      "uniform" 7 0)) =
     draws (events (@rand_alpha_ellipses lcg 2 (PyInt 255) (PyInt 40)
                      "uniform" 7 11)).
Proof.
  assert (Hs : valid_seed 7) by (unfold valid_seed; lia).
  assert (Hm : @uniform_accepts lcg (PyInt 40) = true) by reflexivity.
  assert (Ha1 : @finite_number lcg (PyInt 0) = true) by reflexivity.
  assert (Ha2 : @finite_number lcg (PyInt 255) = true) by reflexivity.
  split; [exact Hs|]. split; [exact Hm|]. split; [exact Ha1|].
  split; [exact Ha2|].
  exact (proj1 (@rand_alpha_ellipses_recolor lcg 2 (PyInt 0) (PyInt 255)
                  (PyInt 40) "uniform" 7 0 11 Hs Hm Ha1 Ha2)).
Defined.

Lemma rand_alpha_ellipses_places_n_circles_witness :
  valid_seed 7 /\ 0 <= 2
  /\ @uniform_accepts lcg (PyInt 40) = true
  /\ @finite_number lcg (PyInt 127) = true
  /\ Z.of_nat (List.length
       (draws (events (@rand_alpha_ellipses lcg 2 (PyInt 127) (PyInt 40)
                         "uniform" 7 0)))) = 6 * 2.
Proof.
  assert (Hs : valid_seed 7) by (unfold valid_seed; lia).
  assert (Hn : 0 <= 2) by lia.
  assert (Hm : @uniform_accepts lcg (PyInt 40) = true) by reflexivity.
  assert (Ha : @finite_number lcg (PyInt 127) = true) by reflexivity.
  split; [exact Hs|]. split; [exact Hn|]. split; [exact Hm|].
  split; [exact Ha|].
  exact (proj1 (@rand_alpha_ellipses_places_n_circles lcg 2 (PyInt 127)
                  (PyInt 40) "uniform" 7 0 Hs Hm Ha Hn)).
Defined.

(** ** The control registry and the render dispatcher of the design *)

Section RegistryProperties.

Import ControlRegistry.

Variable num : Type.
Variable num_leb : num -> num -> bool.
Variable num_zero : num.
Variable world : Type.

Lemma subscribe_all_listeners (c : control num world)
  (ls : list (listener num world)) :
  listeners (fold_left subscribe ls c) = listeners c ++ ls
  /\ control_kind (fold_left subscribe ls c) = control_kind c
  /\ current (fold_left subscribe ls c) = current c.
Proof.
  revert c. induction ls as [|l ls IH]; intros c; simpl.
  - now rewrite app_nil_r.
  - destruct (IH (subscribe c l)) as (H1 & H2 & H3).
    rewrite H1, H2, H3. simpl. now rewrite <- app_assoc.
Qed.

(** C4.  A Control of a numeric kind created with valid bounds (min <=
    max, step > 0) is created without error.  On such a Control, at any
    later time, [setValue] with a number within [min, max] succeeds and
    [getValue] then returns that number; with a number outside
    [min, max] it fails with [OutOfRangeError], the Control, and so its
    stored value, is as before, and no listener has acted. *)
Theorem setValue_within_bounds (id : nat) (k : kind num)
  (mn mx st : num) (initial : value num) (m : update_mode) :
  k = integer_range mn mx st \/ k = real_range mn mx st ->
  num_leb mn mx = true ->
  num_leb st num_zero = false ->
  (exists c : control num world,
     create num_leb num_zero id k initial m = inr c
     /\ control_kind c = k)
  /\ forall (c : control num world) (x : num) (w : world),
       control_kind c = k ->
       (num_leb mn x && num_leb x mx = true ->
        fst (fst (setValue num_leb c (number x) w)) = None
        /\ getValue (snd (fst (setValue num_leb c (number x) w)))
           = number x
        /\ control_kind (snd (fst (setValue num_leb c (number x) w))) = k)
       /\ (num_leb mn x && num_leb x mx = false ->
           setValue num_leb c (number x) w
           = (Some OutOfRangeError, c, w)
           /\ getValue (snd (fst (setValue num_leb c (number x) w)))
              = getValue c).
Proof.
  intros Hk Hbounds Hstep. split.
  - destruct Hk as [-> | ->]; unfold create;
      rewrite Hbounds, Hstep; simpl; eauto.
  - intros c x w Hc. unfold setValue. rewrite Hc.
    destruct Hk as [-> | ->]; cbn [within];
      (split; intros Hx; rewrite Hx; cbn; auto).
Qed.

(** C5.  On a Control to which the listeners [ls] were subscribed one
    after the other, a [setValue] that succeeds leaves the world as the
    listeners make it when each of them is invoked once with the value
    stored, in the order of registration (those the Control already had
    first); a [setValue] that fails invokes none of them. *)
Theorem setValue_fires_listeners (c : control num world)
  (ls : list (listener num world)) (v : value num) (w : world) :
  let subscribed := fold_left subscribe ls c in
  let call := setValue num_leb subscribed v w in
  listeners subscribed = listeners c ++ ls
  /\ (fst (fst call) = None ->
      snd call = fold_left (fun w l => l v w) (listeners c ++ ls) w
      /\ getValue (snd (fst call)) = v)
  /\ (fst (fst call) <> None -> snd call = w).
Proof.
  cbv zeta.
  destruct (subscribe_all_listeners c ls) as (Hl & Hk & Hv).
  split; [exact Hl|].
  unfold setValue. rewrite Hl.
  destruct (control_kind (fold_left subscribe ls c)) as
    [mn mx st|mn mx st| | |options| ];
    try (split; [intros _; split; reflexivity | intros H; now elim H]).
  - destruct (within num_leb mn mx v); cbn;
      (split; [intros H; try discriminate; split; reflexivity
              | intros H; try reflexivity; now elim H]).
  - destruct (within num_leb mn mx v); cbn;
      (split; [intros H; try discriminate; split; reflexivity
              | intros H; try reflexivity; now elim H]).
  - destruct (among options v); cbn;
      (split; [intros H; try discriminate; split; reflexivity
              | intros H; try reflexivity; now elim H]).
Qed.

End RegistryProperties.

Section DispatcherProperties.

Import RenderDispatcher.

Variable snapshot : Type.

Lemma running_app (l1 l2 : list (mark snapshot)) :
  running (l1 ++ l2) = running l1 + running l2.
Proof.
  induction l1 as [|[s|s] l1 IH]; cbn [running app]; lia.
Qed.

Lemma prefixes_snoc (log : list (mark snapshot)) (m : mark snapshot) :
  (forall k, 0 <= running (firstn k log) <= 1) ->
  0 <= running (log ++ [m]) <= 1 ->
  forall k, 0 <= running (firstn k (log ++ [m])) <= 1.
Proof.
  intros Hlog Hall k.
  destruct (Nat.le_gt_cases k (List.length log)) as [Hk|Hk].
  - rewrite firstn_app.
    replace (k - List.length log)%nat with 0%nat by lia.
    cbn [firstn]. rewrite app_nil_r. apply Hlog.
  - rewrite firstn_all2; [exact Hall|].
    rewrite length_app. simpl. lia.
Qed.

(** Whatever reaches the handle, the invocations begun and not ended
    number one when an invocation is in flight and none otherwise, at the
    end of the history and at every point of it. *)
Lemma run_keeps_one_in_flight (es : list (stimulus snapshot))
  (h : handle snapshot) :
  (forall k, 0 <= running (firstn k (history h)) <= 1) ->
  running (history h) = match in_flight h with Some _ => 1 | None => 0 end ->
  (forall k, 0 <= running (firstn k (history (run es h))) <= 1)
  /\ running (history (run es h))
     = match in_flight (run es h) with Some _ => 1 | None => 0 end.
Proof.
  revert h. induction es as [|e es IH]; intros h Hpre Hrun.
  - split; assumption.
  - cbn [run fold_left]. apply IH.
    + destruct e as [s|]; unfold step;
        destruct (in_flight h) as [a|] eqn:Hin; cbn [history]; auto.
      * apply prefixes_snoc; [exact Hpre|].
        rewrite running_app, Hrun. cbn [running]. lia.
      * destruct (pending h) as [s|]; cbn [history].
        -- change [End a; Begin s] with ([End a] ++ [Begin s]).
           rewrite app_assoc.
           apply prefixes_snoc.
           ++ apply prefixes_snoc; [exact Hpre|].
              rewrite running_app, Hrun. cbn [running]. lia.
           ++ rewrite !running_app, Hrun. cbn [running]. lia.
        -- apply prefixes_snoc; [exact Hpre|].
           rewrite running_app, Hrun. cbn [running]. lia.
    + destruct e as [s|]; unfold step;
        destruct (in_flight h) as [a|] eqn:Hin;
        cbn [history in_flight]; rewrite ?Hin; auto.
      * rewrite running_app, Hrun. cbn [running]. lia.
      * destruct (pending h) as [s|]; cbn [history in_flight];
          rewrite running_app, Hrun; cbn [running]; lia.
Qed.

Lemma run_app (es1 es2 : list (stimulus snapshot)) (h : handle snapshot) :
  run (es1 ++ es2) h = run es2 (run es1 h).
Proof.
  unfold run. apply fold_left_app.
Qed.

(** Changes that arrive while an invocation is in flight only replace
    the pending snapshot. *)
Lemma run_fires_in_flight (l : list snapshot) (c a : snapshot)
  (h : handle snapshot) :
  in_flight h = Some a ->
  run (map fire l ++ [fire c]) h
  = {| in_flight := Some a; pending := Some c; history := history h |}.
Proof.
  revert h. induction l as [|b l IH]; intros h Hin.
  - cbn. unfold step. now rewrite Hin.
  - cbn [map app run fold_left]. unfold step at 2. rewrite Hin.
    apply (IH {| in_flight := Some a; pending := Some b;
                 history := history h |}).
    reflexivity.
Qed.

(** C3.  For one handle of the dispatcher, whatever fires and returns,
    at most one invocation of the render function is in flight at any
    point of its history.  When a change starts an invocation and further
    changes, ending with the snapshot c, fire while it is still executing,
    exactly two invocations take place once both have returned: the first
    with the snapshot that started it, and the second, begun after the
    first has ended, with the latest snapshot c. *)
Theorem dispatcher_coalesces :
  (forall (es : list (stimulus snapshot)) (k : nat),
     0 <= running (firstn k (history (run es idle))) <= 1)
  /\ forall (a : snapshot) (l : list snapshot) (c : snapshot),
       let h :=
         run (fire a :: map fire l ++ [fire c; returned; returned]) idle in
       history h = [Begin a; End a; Begin c; End c]
       /\ invocations (history h) = [a; c]
       /\ in_flight h = None
       /\ pending h = None.
Proof.
  split.
  - intros es. apply (run_keeps_one_in_flight es idle).
    + intros k. destruct k; simpl; lia.
    + reflexivity.
  - intros a l c. cbv zeta.
    replace (fire a :: map fire l ++ [fire c; returned; returned])
      with ([fire a] ++ (map fire l ++ [fire c]) ++ [returned; returned])
      by (cbn [app]; now rewrite <- app_assoc).
    rewrite (run_app [fire a]).
    rewrite (run_app (map fire l ++ [fire c])).
    rewrite (run_fires_in_flight l c a) by reflexivity.
    cbn. repeat split.
Qed.

End DispatcherProperties.

(** ** Runs of the registry and of the dispatcher *)

Lemma setValue_within_bounds_witness :
  let k := ControlRegistry.integer_range 0 10 1 in
  let c : ControlRegistry.control Z unit :=
    {| ControlRegistry.identifier := 0%nat;
       ControlRegistry.control_kind := k;
       ControlRegistry.current := ControlRegistry.number 5;
       ControlRegistry.mode := ControlRegistry.immediate;
       ControlRegistry.listeners := [] |} in
  Z.leb 0 10 = true /\ Z.leb 1 0 = false
  /\ Z.leb 0 8 && Z.leb 8 10 = true
  /\ Z.leb 0 11 && Z.leb 11 10 = false
  /\ ControlRegistry.getValue
       (snd (fst (ControlRegistry.setValue Z.leb c
                    (ControlRegistry.number 8) tt)))
     = ControlRegistry.number 8
  /\ ControlRegistry.setValue Z.leb c (ControlRegistry.number 11) tt
     = (Some ControlRegistry.OutOfRangeError, c, tt).
Proof.
  intros k c.
  assert (Hb : Z.leb 0 10 = true) by reflexivity.
  assert (Hs : Z.leb 1 0 = false) by reflexivity.
  assert (Hin : Z.leb 0 8 && Z.leb 8 10 = true) by reflexivity.
  assert (Hout : Z.leb 0 11 && Z.leb 11 10 = false) by reflexivity.
  split; [exact Hb|]. split; [exact Hs|]. split; [exact Hin|].
  split; [exact Hout|].
  pose proof (proj2 (setValue_within_bounds Z Z.leb 0 unit 0 k 0 10 1
                       (ControlRegistry.number 5) ControlRegistry.immediate
                       (or_introl eq_refl) Hb Hs)) as H.
  split.
  - exact (proj1 (proj2 (proj1 (H c 8 tt eq_refl) Hin))).
  - exact (proj1 (proj2 (H c 11 tt eq_refl) Hout)).
Defined.

Lemma setValue_fires_listeners_witness :
  let c : ControlRegistry.control Z (list nat) :=
    {| ControlRegistry.identifier := 0%nat;
       ControlRegistry.control_kind := ControlRegistry.integer_range 0 10 1;
       ControlRegistry.current := ControlRegistry.number 5;
       ControlRegistry.mode := ControlRegistry.immediate;
       ControlRegistry.listeners := [] |} in
  let ls : list (ControlRegistry.listener Z (list nat)) :=
    [fun _ log => log ++ [1%nat]; fun _ log => log ++ [2%nat];
     fun _ log => log ++ [3%nat]] in
  let call :=
    ControlRegistry.setValue Z.leb
      (fold_left ControlRegistry.subscribe ls c)
      (ControlRegistry.number 8) [] in
  fst (fst call) = None /\ snd call = [1%nat; 2%nat; 3%nat].
Proof.
  intros c ls call.
  assert (Hok : fst (fst call) = None) by reflexivity.
  split; [exact Hok|].
  exact (proj1 (proj1 (proj2 (setValue_fires_listeners Z Z.leb (list nat)
           c ls (ControlRegistry.number 8) [])) Hok)).
Defined.

Example dispatcher_two_changes_in_flight :
  RenderDispatcher.invocations
    (RenderDispatcher.history
       (RenderDispatcher.run
          [RenderDispatcher.fire 5; RenderDispatcher.fire 6;
           RenderDispatcher.fire 8; RenderDispatcher.returned;
           RenderDispatcher.returned] RenderDispatcher.idle))
  = [5; 8].
Proof. reflexivity. Qed.
